(** * warp-fwd-dns: the Logpush worker that keeps a DNS zone in step with
    the WARP devices' addresses (src/worker.js).

    The worker is embedded as a tree of HTTP calls: every [await fetch(...)]
    of the source is a node whose continuation receives what came back (a
    rejected promise, or a response with a status and a body).  Running such
    a tree against a handler for the outside world gives the value or the
    exception the JavaScript yields, the final state of the world and the
    list of calls issued, in order. *)

From Stdlib Require Import List String Bool Arith Lia DecimalString.
Import ListNotations.
Open Scope string_scope.
Open Scope list_scope.

Set Implicit Arguments.

(** ** Data *)

(** A DNS record as the Cloudflare API lists it.  The worker reads [id],
    [name] and [content]; [rec_type] is the record type the queries filter on. *)
Record DNSRecord := mkRecord {
  rec_id : string;
  rec_type : string;
  rec_name : string;
  rec_content : string
}.

(** [deviceDetails.metadata.ipv4]: each level may be missing. *)
Record Metadata := mkMetadata { md_ipv4 : option string }.
Record DeviceDetails := mkDetails { metadata : option Metadata }.

(** The [result] member of an API answer: null or undefined, an object (the
    device details) or an array of records. *)
Inductive ApiResult :=
| ResNull
| ResDevice (d : DeviceDetails)
| ResList (l : list DNSRecord).

Record ApiData := mkData { success : bool; result : ApiResult }.

Inductive Body :=
| NotJson
| JsonBody (d : ApiData).

Record Response := mkResponse { status : nat; body : Body }.

(** What [await fetch(url, init)] produces. *)
Inductive FetchOutcome :=
| FetchRejects
| Responded (r : Response).

(** The six calls of the worker, by URL and method.  The arguments are the
    strings the worker pastes into the URL (or puts in the JSON body) as
    they are, unencoded; what the service makes of them is for the handler
    to say.  The authentication headers are the same constants of [env] on
    every call and are left out. *)
Inductive Request :=
| GetDevice (account deviceId : string)
| ListByName (zone_id name : string)
| ListByContent (zone_id ipv4 : string)
| CreateRecord (zone_id name content : string)
| UpdateRecord (zone_id recordId name content : string)
| DeleteRecord (zone_id recordId : string).

Definition is_mutation (r : Request) : bool :=
  match r with
  | CreateRecord _ _ _ | UpdateRecord _ _ _ _ | DeleteRecord _ _ => true
  | _ => false
  end.

Definition is_dns_call (r : Request) : bool :=
  match r with
  | GetDevice _ _ => false
  | _ => true
  end.

Record Env := mkEnv {
  ACCOUNT_ID : string;
  API_KEY : string;
  EMAIL : string;
  ZONE_ID : string;
  DOMAIN_SUFFIX : string
}.

(** [deviceData] of the main loop. *)
Record Device := mkDevice { dev_name : string; dev_ipv4 : string }.

Inductive ActionKind := created | updated | no_change.

(** The object [manageDNSRecord] returns. *)
Record Action := mkAction {
  action : ActionKind;
  act_name : string;
  act_ipv4 : string;
  deleted_duplicate : option string
}.

Inductive Error := NetworkError | SyntaxError | TypeError.

(** ** Programs *)

Inductive Prog (A : Type) : Type :=
| Ret (a : A)
| Throw (e : Error)
| Fetch (r : Request) (k : FetchOutcome -> Prog A).

Arguments Throw {A} e.
Arguments Fetch {A} r k.

Fixpoint bind {A B} (p : Prog A) (f : A -> Prog B) : Prog B :=
  match p with
  | Ret a => f a
  | Throw e => Throw e
  | Fetch r k => Fetch r (fun o => bind (k o) f)
  end.

(** [try { p } catch (error) { h error }] *)
Fixpoint try_catch {A} (p : Prog A) (h : Error -> Prog A) : Prog A :=
  match p with
  | Ret a => Ret a
  | Throw e => h e
  | Fetch r k => Fetch r (fun o => try_catch (k o) h)
  end.

Declare Scope prog_scope.
Delimit Scope prog_scope with prog.
Notation "x <- c1 ;; c2" := (bind c1 (fun x => c2))
  (at level 100, c1 at next level, right associativity) : prog_scope.
Notation "c1 ;;; c2" := (bind c1 (fun _ => c2))
  (at level 100, right associativity) : prog_scope.
Open Scope prog_scope.

(** [await fetch(url, init)]: the response, or the rejection rethrown. *)
Definition fetch (r : Request) : Prog Response :=
  Fetch r (fun o =>
    match o with
    | FetchRejects => Throw NetworkError
    | Responded resp => Ret resp
    end).

(** [await response.json()] *)
Definition json (r : Response) : Prog ApiData :=
  match body r with
  | NotJson => Throw SyntaxError
  | JsonBody d => Ret d
  end.

(** JavaScript truthiness of a string that may be undefined. *)
Definition truthy (s : option string) : bool :=
  match s with
  | None => false
  | Some s => negb (s =? "")
  end.

(** ** The worker *)

(** [getDeviceDetails]: null is [ResNull]. *)
Definition getDeviceDetails (deviceId : string) (env : Env) : Prog ApiResult :=
  try_catch
    (response <- fetch (GetDevice (ACCOUNT_ID env) deviceId) ;;
     data <- json response ;;
     if negb (success data) then Ret ResNull
     else Ret (result data))
    (fun _ => Ret ResNull).

(** [data.success && data.result.length > 0 ? data.result[0] : null], the
    last line of both lookups.  [null.length] is a TypeError; an object that
    is no array has no length, and [undefined > 0] is false. *)
Definition first_result (data : ApiData) : Prog (option DNSRecord) :=
  if success data then
    match result data with
    | ResNull => Throw TypeError
    | ResDevice _ => Ret None
    | ResList [] => Ret None
    | ResList (r :: _) => Ret (Some r)
    end
  else Ret None.

Definition getDNSRecord (name : string) (env : Env) : Prog (option DNSRecord) :=
  response <- fetch (ListByName (ZONE_ID env) name) ;;
  data <- json response ;;
  first_result data.

Definition findDuplicateDNSRecord (ipv4 : string) (env : Env)
  : Prog (option DNSRecord) :=
  response <- fetch (ListByContent (ZONE_ID env) ipv4) ;;
  data <- json response ;;
  first_result data.

Definition createDNSRecord (name content : string) (env : Env) : Prog unit :=
  fetch (CreateRecord (ZONE_ID env) name content) ;;; Ret tt.

Definition updateDNSRecord (recordId name content : string) (env : Env)
  : Prog unit :=
  fetch (UpdateRecord (ZONE_ID env) recordId name content) ;;; Ret tt.

Definition deleteDNSRecord (recordId : string) (env : Env) : Prog unit :=
  fetch (DeleteRecord (ZONE_ID env) recordId) ;;; Ret tt.

Definition dns_name (device : Device) (env : Env) : string :=
  dev_name device ++ "." ++ DOMAIN_SUFFIX env.

Definition manageDNSRecord (device : Device) (env : Env) : Prog Action :=
  let dnsName := dns_name device env in
  existingRecord <- getDNSRecord dnsName env ;;
  match existingRecord with
  | None =>
      createDNSRecord dnsName (dev_ipv4 device) env ;;;
      Ret (mkAction created dnsName (dev_ipv4 device) None)
  | Some existing =>
      if negb (rec_content existing =? dev_ipv4 device) then
        duplicateRecord <- findDuplicateDNSRecord (dev_ipv4 device) env ;;
        match duplicateRecord with
        | Some duplicate =>
            deleteDNSRecord (rec_id duplicate) env ;;;
            updateDNSRecord (rec_id existing) dnsName (dev_ipv4 device) env ;;;
            Ret (mkAction updated dnsName (dev_ipv4 device)
                          (Some (rec_name duplicate)))
        | None =>
            updateDNSRecord (rec_id existing) dnsName (dev_ipv4 device) env ;;;
            Ret (mkAction updated dnsName (dev_ipv4 device) None)
        end
      else Ret (mkAction no_change dnsName (dev_ipv4 device) None)
  end.

(** *** The batch *)

(** One parsed line of the batch.  [JSON.parse] may give null, whose
    destructuring throws; any other value gives the two members, undefined
    when missing. *)
Inductive LogEntry :=
| JNull
| JObj (DeviceID DeviceName : option string).

(** A JavaScript [Map] with string keys: [set] on a key already present
    replaces the value where the key stands, a new key goes to the end, and
    iteration follows that order. *)
Definition JsMap := list (string * string).

Fixpoint map_set (k v : string) (m : JsMap) : JsMap :=
  match m with
  | [] => [(k, v)]
  | (k', v') :: m' =>
      if k' =? k then (k, v) :: m' else (k', v') :: map_set k v m'
  end.

Fixpoint map_get (k : string) (m : JsMap) : option string :=
  match m with
  | [] => None
  | (k', v') :: m' => if k' =? k then Some v' else map_get k m'
  end.

Definition keys (m : JsMap) : list string := map fst m.

(** The [forEach] over the parsed entries, from the map built so far:
    [if (DeviceID && DeviceName) uniqueDevices.set(DeviceID, DeviceName)]. *)
Fixpoint collect (logEntries : list LogEntry) (m : JsMap) : Prog JsMap :=
  match logEntries with
  | [] => Ret m
  | JNull :: _ => Throw TypeError
  | JObj (Some i) (Some n) :: rest =>
      if truthy (Some i) && truthy (Some n)
      then collect rest (map_set i n m)
      else collect rest m
  | JObj _ _ :: rest => collect rest m
  end.

Definition uniqueDevices (logEntries : list LogEntry) : Prog JsMap :=
  collect logEntries [].

(** The address the loop reads off the details, when none of
    [!deviceDetails || !deviceDetails.metadata || !deviceDetails.metadata.ipv4]
    holds. *)
Definition details_ipv4 (deviceDetails : ApiResult) : option string :=
  match deviceDetails with
  | ResNull => None
  | ResList _ => None
  | ResDevice d =>
      match metadata d with
      | None => None
      | Some md => if truthy (md_ipv4 md) then md_ipv4 md else None
      end
  end.

(** The [for ... of uniqueDevices] loop, [actions] being the array so far. *)
Fixpoint processDevices (devices : JsMap) (actions : list Action) (env : Env)
  : Prog (list Action) :=
  match devices with
  | [] => Ret actions
  | (deviceId, deviceName) :: rest =>
      deviceDetails <- getDeviceDetails deviceId env ;;
      match details_ipv4 deviceDetails with
      | None => processDevices rest actions env
      | Some ip =>
          (* the object returned is truthy: [if (action)] always pushes *)
          act <- manageDNSRecord (mkDevice deviceName ip) env ;;
          processDevices rest (actions ++ [act]) env
      end
  end.

(** The inbound request: its method and what steps 1 and 2 make of its body
    ([None] when the decompression or a [JSON.parse] throws).  [split]
    gives at least one line, so the code never gets to [Some []]: an empty
    body is one empty line, on which [JSON.parse] throws. *)
Record HttpRequest := mkRequest {
  method : string;
  decoded : option (list LogEntry)
}.

Inductive ReplyBody :=
| TextBody (s : string)
| JsonActions (l : list Action).

Record Reply := mkReply { reply_status : nat; reply_body : ReplyBody }.

(** The body of the [try] block. *)
Definition process_batch (request : HttpRequest) (env : Env)
  : Prog (list Action) :=
  match decoded request with
  | None => Throw SyntaxError
  | Some logEntries =>
      devices <- uniqueDevices logEntries ;;
      processDevices devices [] env
  end.

(** The exported [fetch] handler of the worker. *)
Definition worker_fetch (request : HttpRequest) (env : Env) : Prog Reply :=
  if negb (method request =? "POST") then
    Ret (mkReply 405 (TextBody "Only POST requests are allowed"))
  else
    try_catch
      (actions <- process_batch request env ;;
       Ret (mkReply 200 (JsonActions actions)))
      (fun _ => Ret (mkReply 500 (TextBody "Error processing data"))).

(** ** Running a program against the outside world *)

Inductive Result (A : Type) :=
| Ok (a : A)
| Exn (e : Error).
Arguments Exn {A} e.

(** A call as the trace keeps it: the request and what came back. *)
Definition Call := (Request * FetchOutcome)%type.
Definition Trace := list Call.

Definition requests (t : Trace) : list Request := map fst t.

Section Run.
Variable World : Type.
Variable handle : Request -> World -> FetchOutcome * World.

Fixpoint run {A} (p : Prog A) (w : World) : Result A * World * Trace :=
  match p with
  | Ret a => (Ok a, w, [])
  | Throw e => (Exn e, w, [])
  | Fetch r k =>
      let '(o, w1) := handle r w in
      let '(res, w2, t) := run (k o) w1 in
      (res, w2, (r, o) :: t)
  end.
End Run.

(** ** A reference model of the two services

    The account's device directory and the zone, as far as the worker's six
    calls can tell, with a schedule of faults: the head of [faults] decides
    what happens to the next call, and an empty schedule means every
    remaining call is served. *)

Inductive Fault :=
| Healthy   (* the call is served *)
| Reject    (* the fetch rejects; the service never sees the call *)
| Refuse    (* the service answers success: false and does nothing *)
| Garbled.  (* a gateway answers with a body that is no JSON *)

Record World := mkWorld {
  zone : list DNSRecord;
  directory : list (string * DeviceDetails);
  next_id : nat;
  faults : list Fault
}.

Definition is_A (r : DNSRecord) : bool := rec_type r =? "A".

(** The A records of a zone with a given name, and with a given content. *)
Definition a_named (n : string) (z : list DNSRecord) : list DNSRecord :=
  filter (fun r => is_A r && (rec_name r =? n)) z.

Definition a_bound (c : string) (z : list DNSRecord) : list DNSRecord :=
  filter (fun r => is_A r && (rec_content r =? c)) z.

Definition delete_id (i : string) (z : list DNSRecord) : list DNSRecord :=
  filter (fun r => negb (rec_id r =? i)) z.

Definition overwrite_id (i n c : string) (z : list DNSRecord)
  : list DNSRecord :=
  map (fun r => if rec_id r =? i then mkRecord i "A" n c else r) z.

Definition has_id (i : string) (z : list DNSRecord) : bool :=
  existsb (fun r => rec_id r =? i) z.

Definition fresh_id (n : nat) : string :=
  "rec-" ++ NilEmpty.string_of_uint (Nat.to_uint n).

Fixpoint find_device (i : string) (d : list (string * DeviceDetails))
  : option DeviceDetails :=
  match d with
  | [] => None
  | (k, v) :: d' => if k =? i then Some v else find_device i d'
  end.

Definition answer (d : ApiResult) : FetchOutcome :=
  Responded (mkResponse 200 (JsonBody (mkData true d))).

Definition refusal (code : nat) : FetchOutcome :=
  Responded (mkResponse code (JsonBody (mkData false ResNull))).

(** A call that reaches the services. *)
Definition serve (r : Request) (w : World) : FetchOutcome * World :=
  match r with
  | GetDevice _ i =>
      match find_device i (directory w) with
      | Some d => (answer (ResDevice d), w)
      | None => (refusal 404, w)
      end
  | ListByName _ n => (answer (ResList (a_named n (zone w))), w)
  | ListByContent _ c => (answer (ResList (a_bound c (zone w))), w)
  | CreateRecord _ n c =>
      let r := mkRecord (fresh_id (next_id w)) "A" n c in
      (answer (ResList [r]),
       mkWorld (zone w ++ [r]) (directory w) (S (next_id w)) (faults w))
  | UpdateRecord _ i n c =>
      if has_id i (zone w) then
        (answer (ResList [mkRecord i "A" n c]),
         mkWorld (overwrite_id i n c (zone w)) (directory w) (next_id w)
                 (faults w))
      else (refusal 404, w)
  | DeleteRecord _ i =>
      if has_id i (zone w) then
        (answer ResNull,
         mkWorld (delete_id i (zone w)) (directory w) (next_id w) (faults w))
      else (refusal 404, w)
  end.

Definition cloudflare (r : Request) (w : World) : FetchOutcome * World :=
  match faults w with
  | [] => serve r w
  | f :: fs =>
      let w' := mkWorld (zone w) (directory w) (next_id w) fs in
      match f with
      | Healthy => serve r w'
      | Reject => (FetchRejects, w')
      | Refuse => (refusal 500, w')
      | Garbled => (Responded (mkResponse 502 NotJson), w')
      end
  end.

(** The steady state the worker aims at: record ids identify records, a
    hostname has at most one A record and an address at most one. *)
Definition steady (z : list DNSRecord) : Prop :=
  NoDup (map rec_id z) /\
  (forall r1 r2, In r1 z -> In r2 z -> is_A r1 = true -> is_A r2 = true ->
     rec_name r1 = rec_name r2 -> r1 = r2) /\
  (forall r1 r2, In r1 z -> In r2 z -> is_A r1 = true -> is_A r2 = true ->
     rec_content r1 = rec_content r2 -> r1 = r2).

(** What reconciling [(n, c)] is to establish: the hostname has exactly one
    A record, and no A record of another hostname is bound to [c]. *)
Definition reconciled (n c : string) (z : list DNSRecord) : Prop :=
  List.length (a_named n z) = 1 /\
  (forall r, In r z -> is_A r = true -> rec_content r = c -> rec_name r = n).

(** ** What a call's answer means to the worker *)

(** A response that reports failure: an HTTP error status, or a body whose
    success flag is off. *)
Definition reports_failure (o : FetchOutcome) : Prop :=
  exists r, o = Responded r /\
    (400 <= status r \/ exists d, body r = JsonBody d /\ success d = false).

(** An answer with the success flag off. *)
Definition refused (o : FetchOutcome) : Prop :=
  exists r d, o = Responded r /\ body r = JsonBody d /\ success d = false.

(** The directory lookup fails: the fetch is rejected, the body is no JSON,
    or the answer has the success flag off. *)
Inductive lookup_fails : FetchOutcome -> Prop :=
| fails_rejected : lookup_fails FetchRejects
| fails_not_json : forall st, lookup_fails (Responded (mkResponse st NotJson))
| fails_refused : forall st r,
    lookup_fails (Responded (mkResponse st (JsonBody (mkData false r)))).

(** The directory answers with success and no address: no result, a result
    that is no device object, a device without metadata, metadata without
    [ipv4], or an empty [ipv4]. *)
Inductive no_address : FetchOutcome -> Prop :=
| no_result : forall st,
    no_address (Responded (mkResponse st (JsonBody (mkData true ResNull))))
| no_device : forall st l,
    no_address (Responded (mkResponse st (JsonBody (mkData true (ResList l)))))
| no_metadata : forall st,
    no_address
      (Responded (mkResponse st
         (JsonBody (mkData true (ResDevice (mkDetails None))))))
| no_ipv4 : forall st,
    no_address
      (Responded (mkResponse st
         (JsonBody (mkData true
            (ResDevice (mkDetails (Some (mkMetadata None))))))))
| empty_ipv4 : forall st,
    no_address
      (Responded (mkResponse st
         (JsonBody (mkData true
            (ResDevice (mkDetails (Some (mkMetadata (Some ""))))))))).

(** The address a directory answer carries: that of a success answer whose
    result is a device with a non-empty [metadata.ipv4]. *)
Definition address_in (o : FetchOutcome) : option string :=
  match o with
  | Responded
      {| body := JsonBody
           {| success := true;
              result := ResDevice
                {| metadata := Some {| md_ipv4 := Some ip |} |} |} |} =>
      if ip =? "" then None else Some ip
  | _ => None
  end.

(** What the directory answered, call by call, in a trace. *)
Fixpoint directory_answers (t : Trace) : list FetchOutcome :=
  match t with
  | [] => []
  | (GetDevice _ _, o) :: t' => o :: directory_answers t'
  | _ :: t' => directory_answers t'
  end.

(** [handle] with every mutation's response replaced by a failure report;
    the world moves as under [handle]. *)
Definition failing_mutations (World : Type)
  (handle : Request -> World -> FetchOutcome * World)
  (r : Request) (w : World) : FetchOutcome * World :=
  let '(o, w1) := handle r w in
  if is_mutation r then
    match o with
    | FetchRejects => (FetchRejects, w1)
    | Responded _ => (refusal 500, w1)
    end
  else (o, w1).

(** A program whose course does not depend on what a mutation's response
    says. *)
Inductive blind (A : Type) : Prog A -> Prop :=
| blind_ret : forall a, blind (Ret a)
| blind_throw : forall e, blind (Throw e)
| blind_fetch : forall r k,
    (forall o, blind (k o)) ->
    (is_mutation r = true ->
     forall r1 r2, k (Responded r1) = k (Responded r2)) ->
    blind (Fetch r k).

(** What the worker makes of the answer to a lookup, to a mutation and to
    the directory call. *)
Definition read_first (o : FetchOutcome) : Result (option DNSRecord) :=
  match o with
  | FetchRejects => Exn NetworkError
  | Responded r =>
      match body r with
      | NotJson => Exn SyntaxError
      | JsonBody d =>
          if success d then
            match result d with
            | ResNull => Exn TypeError
            | ResDevice _ => Ok None
            | ResList [] => Ok None
            | ResList (x :: _) => Ok (Some x)
            end
          else Ok None
      end
  end.

Definition ack (o : FetchOutcome) : Result unit :=
  match o with
  | FetchRejects => Exn NetworkError
  | Responded _ => Ok tt
  end.

Definition read_details (o : FetchOutcome) : ApiResult :=
  match o with
  | FetchRejects => ResNull
  | Responded r =>
      match body r with
      | NotJson => ResNull
      | JsonBody d => if success d then result d else ResNull
      end
  end.

(** The end of a branch of [manageDNSRecord]: the action, unless the last
    mutation threw. *)
Definition finish (r : Result unit) (a : Action) : Result Action :=
  match r with
  | Ok _ => Ok a
  | Exn e => Exn e
  end.

(** The reply of the worker to a POST, from the outcome of the [try] block. *)
Definition reply_of (res : Result (list Action)) : Reply :=
  match res with
  | Ok actions => mkReply 200 (JsonActions actions)
  | Exn _ => mkReply 500 (TextBody "Error processing data")
  end.

(** ** Sample data *)

Definition env0 : Env :=
  mkEnv "acct-1" "global-key" "ops@example.com" "zone-1" "example.com".

Definition rec_a : DNSRecord := mkRecord "rec-1" "A" "a.example.com" "10.0.0.1".
Definition rec_b : DNSRecord := mkRecord "rec-2" "A" "b.example.com" "10.0.0.2".

Definition device_b : Device := mkDevice "b" "10.0.0.1".

(** A zone with [a.example.com -> 10.0.0.1] alone, and one that also has
    [b.example.com -> 10.0.0.2]. *)
Definition world_a : World := mkWorld [rec_a] [] 2 [].
Definition world_ab : World := mkWorld [rec_a; rec_b] [] 3 [].

(** A zone where [b.example.com] already holds [10.0.0.1]. *)
Definition world_b1 : World :=
  mkWorld [mkRecord "rec-2" "A" "b.example.com" "10.0.0.1"] [] 3 [].

Definition details_of (ip : string) : DeviceDetails :=
  mkDetails (Some (mkMetadata (Some ip))).

Definition directory2 : list (string * DeviceDetails) :=
  [("dev-1", details_of "10.0.0.1"); ("dev-2", details_of "10.0.0.2")].

(** An empty zone, two known devices and a schedule of faults. *)
Definition world_batch (fs : list Fault) : World := mkWorld [] directory2 1 fs.

Definition request2 : HttpRequest :=
  mkRequest "POST"
    (Some [JObj (Some "dev-1") (Some "alpha");
           JObj (Some "dev-2") (Some "beta")]).

(** What C2 as worded predicts of a batch in which a DNS call of the device
    named [failed] fails and the device named [next] follows it: a list of
    actions comes back, with none for [failed] and one for [next]. *)
Definition skipped_and_continued
  (outcome : Result Reply * World * Trace) (failed next : string) : Prop :=
  exists log,
    fst (fst outcome) = Ok (mkReply 200 (JsonActions log)) /\
    (forall a, In a log -> act_name a <> failed) /\
    (exists a, In a log /\ act_name a = next).

(** ** Further notions *)

(** The exception a call raises in the worker, if any: a lookup's answer is
    read, a mutation's is not. *)
Definition call_error (c : Call) : option Error :=
  if is_mutation (fst c) then
    match ack (snd c) with Exn e => Some e | Ok _ => None end
  else
    match read_first (snd c) with Exn e => Some e | Ok _ => None end.

(** The pair an entry contributes to the map, if the [forEach] keeps it. *)
Definition kept (e : LogEntry) : option (string * string) :=
  match e with
  | JObj (Some i) (Some n) =>
      if truthy (Some i) && truthy (Some n) then Some (i, n) else None
  | _ => None
  end.

(** [l1] is [l2] with some elements left out. *)
Inductive subseq (A : Type) : list A -> list A -> Prop :=
| subseq_nil : subseq [] []
| subseq_skip : forall x l1 l2, subseq l1 l2 -> subseq l1 (x :: l2)
| subseq_take : forall x l1 l2, subseq l1 l2 -> subseq (x :: l1) (x :: l2).

(** The hostname the loop reconciles for an entry of the map. *)
Definition hostname_of (env : Env) (d : string * string) : string :=
  snd d ++ "." ++ DOMAIN_SUFFIX env.

(** The calls to the device directory among a list of requests. *)
Definition directory_calls (l : list Request) : list Request :=
  filter (fun q => negb (is_dns_call q)) l.

(** The hostnames and addresses a completed batch is to report: for each
    device of the map, in order, the one of the device when the directory's
    answer carried an address, and nothing otherwise. *)
Fixpoint expected_log (env : Env) (devices : JsMap)
  (answers : list FetchOutcome) : list (string * string) :=
  match devices, answers with
  | d :: ds, o :: os =>
      match address_in o with
      | Some ip => (hostname_of env d, ip) :: expected_log env ds os
      | None => expected_log env ds os
      end
  | _, _ => []
  end.

(** Strings that a URL carries as they are, in a path segment or in a query
    value: letters, digits, [-], [.], [_] and [~] only.  The worker pastes
    names, addresses and identifiers into its URLs unencoded, so the typed
    calls above and the URLs sent agree on such strings. *)
Definition unreserved (c : Ascii.ascii) : bool :=
  let n := Ascii.nat_of_ascii c in
  ((48 <=? n)%nat && (n <=? 57)%nat) || ((65 <=? n)%nat && (n <=? 90)%nat) ||
  ((97 <=? n)%nat && (n <=? 122)%nat) ||
  (n =? 45)%nat || (n =? 46)%nat || (n =? 95)%nat || (n =? 126)%nat.

Fixpoint url_safe (s : string) : bool :=
  match s with
  | EmptyString => true
  | String c s' => unreserved c && url_safe s'
  end.

(** A zone with a third hostname and a TXT record beside the two. *)
Definition rec_c : DNSRecord := mkRecord "rec-3" "A" "c.example.com" "10.0.0.3".
Definition rec_txt : DNSRecord :=
  mkRecord "rec-4" "TXT" "b.example.com" "10.0.0.1".
Definition world_abc : World :=
  mkWorld [rec_a; rec_b; rec_c; rec_txt] [] 5 [].

(** The run of the reconciliation of [device_b] in [world_ab]: its trace
    and the world it ends in. *)
Definition rec_b' : DNSRecord := mkRecord "rec-2" "A" "b.example.com" "10.0.0.1".

Definition trace_ab : Trace :=
  [(ListByName "zone-1" "b.example.com", answer (ResList [rec_b]));
   (ListByContent "zone-1" "10.0.0.1", answer (ResList [rec_a]));
   (DeleteRecord "zone-1" "rec-1", answer ResNull);
   (UpdateRecord "zone-1" "rec-2" "b.example.com" "10.0.0.1",
    answer (ResList [rec_b']))].

Definition world_ab_done : World := mkWorld [rec_b'] [] 3 [].

(** The same run with the update rejected. *)
Definition trace_ab_cut : Trace :=
  [(ListByName "zone-1" "b.example.com", answer (ResList [rec_b]));
   (ListByContent "zone-1" "10.0.0.1", answer (ResList [rec_a]));
   (DeleteRecord "zone-1" "rec-1", answer ResNull);
   (UpdateRecord "zone-1" "rec-2" "b.example.com" "10.0.0.1", FetchRejects)].

Definition devices2 : JsMap := [("dev-1", "alpha"); ("dev-2", "beta")].

(** A directory that answers every call with a device that has no
    metadata. *)
Definition addressless (q : Request) (w : unit) : FetchOutcome * unit :=
  (answer (ResDevice (mkDetails None)), w).

(** A directory with a device without metadata and one without [ipv4]. *)
Definition world_dirs (fs : list Fault) : World :=
  mkWorld []
    [("dev-1", details_of "10.0.0.1"); ("dev-3", mkDetails None);
     ("dev-4", mkDetails (Some (mkMetadata None)));
     ("dev-5", mkDetails (Some (mkMetadata (Some ""))))]
    1 fs.

(** A steady zone where the update that follows the delete is rejected. *)
Definition world_ab_cut : World :=
  mkWorld [rec_a; rec_b] [] 3 [Healthy; Healthy; Healthy; Reject].

(** ** Running: general facts *)

Unset Implicit Arguments.

Section RunFacts.
Variable World : Type.
Variable handle : Request -> World -> FetchOutcome * World.

Lemma run_bind A B (p : Prog A) (f : A -> Prog B) (w : World) :
  run handle (bind p f) w =
  match run handle p w with
  | (Ok a, w1, t1) =>
      let '(r, w2, t2) := run handle (f a) w1 in (r, w2, t1 ++ t2)
  | (Exn e, w1, t1) => (Exn e, w1, t1)
  end.
Proof.
  revert w; induction p as [a | e | r k IH]; intro w; simpl.
  - destruct (run handle (f a) w) as [[res w2] t2]; reflexivity.
  - reflexivity.
  - destruct (handle r w) as [o w1]. rewrite IH.
    destruct (run handle (k o) w1) as [[[a | e] w2] t1]; [|reflexivity].
    destruct (run handle (f a) w2) as [[res w3] t2]; reflexivity.
Qed.

Lemma run_try_catch A (p : Prog A) (h : Error -> Prog A) (w : World) :
  run handle (try_catch p h) w =
  match run handle p w with
  | (Ok a, w1, t1) => (Ok a, w1, t1)
  | (Exn e, w1, t1) =>
      let '(r, w2, t2) := run handle (h e) w1 in (r, w2, t1 ++ t2)
  end.
Proof.
  revert w; induction p as [a | e | r k IH]; intro w; simpl.
  - reflexivity.
  - destruct (run handle (h e) w) as [[res w2] t2]; reflexivity.
  - destruct (handle r w) as [o w1]. rewrite IH.
    destruct (run handle (k o) w1) as [[[a | e] w2] t1]; [reflexivity|].
    destruct (run handle (h e) w2) as [[res w3] t2]; reflexivity.
Qed.

Lemma run_getDNSRecord name env w :
  run handle (getDNSRecord name env) w =
  (read_first (fst (handle (ListByName (ZONE_ID env) name) w)),
   snd (handle (ListByName (ZONE_ID env) name) w),
   [(ListByName (ZONE_ID env) name,
     fst (handle (ListByName (ZONE_ID env) name) w))]).
Proof.
  unfold getDNSRecord, fetch, json, first_result; simpl.
  destruct (handle _ w) as [[|[st [|[[] [| d |[|x l]]]]]] w1]; reflexivity.
Qed.

Lemma run_findDuplicateDNSRecord ipv4 env w :
  run handle (findDuplicateDNSRecord ipv4 env) w =
  (read_first (fst (handle (ListByContent (ZONE_ID env) ipv4) w)),
   snd (handle (ListByContent (ZONE_ID env) ipv4) w),
   [(ListByContent (ZONE_ID env) ipv4,
     fst (handle (ListByContent (ZONE_ID env) ipv4) w))]).
Proof.
  unfold findDuplicateDNSRecord, fetch, json, first_result; simpl.
  destruct (handle _ w) as [[|[st [|[[] [| d |[|x l]]]]]] w1]; reflexivity.
Qed.

Lemma run_createDNSRecord name content env w :
  run handle (createDNSRecord name content env) w =
  (ack (fst (handle (CreateRecord (ZONE_ID env) name content) w)),
   snd (handle (CreateRecord (ZONE_ID env) name content) w),
   [(CreateRecord (ZONE_ID env) name content,
     fst (handle (CreateRecord (ZONE_ID env) name content) w))]).
Proof.
  unfold createDNSRecord, fetch; simpl.
  destruct (handle _ w) as [[|r] w1]; reflexivity.
Qed.

Lemma run_updateDNSRecord i name content env w :
  run handle (updateDNSRecord i name content env) w =
  (ack (fst (handle (UpdateRecord (ZONE_ID env) i name content) w)),
   snd (handle (UpdateRecord (ZONE_ID env) i name content) w),
   [(UpdateRecord (ZONE_ID env) i name content,
     fst (handle (UpdateRecord (ZONE_ID env) i name content) w))]).
Proof.
  unfold updateDNSRecord, fetch; simpl.
  destruct (handle _ w) as [[|r] w1]; reflexivity.
Qed.

Lemma run_deleteDNSRecord i env w :
  run handle (deleteDNSRecord i env) w =
  (ack (fst (handle (DeleteRecord (ZONE_ID env) i) w)),
   snd (handle (DeleteRecord (ZONE_ID env) i) w),
   [(DeleteRecord (ZONE_ID env) i,
     fst (handle (DeleteRecord (ZONE_ID env) i) w))]).
Proof.
  unfold deleteDNSRecord, fetch; simpl.
  destruct (handle _ w) as [[|r] w1]; reflexivity.
Qed.

(** The directory lookup always returns: whatever goes wrong inside is
    turned into null, after the one call it makes. *)
Lemma run_getDeviceDetails deviceId env w :
  run handle (getDeviceDetails deviceId env) w =
  (Ok (read_details (fst (handle (GetDevice (ACCOUNT_ID env) deviceId) w))),
   snd (handle (GetDevice (ACCOUNT_ID env) deviceId) w),
   [(GetDevice (ACCOUNT_ID env) deviceId,
     fst (handle (GetDevice (ACCOUNT_ID env) deviceId) w))]).
Proof.
  unfold getDeviceDetails, fetch, json; simpl.
  destruct (handle _ w) as [[|[st [|[[] d]]]] w1]; reflexivity.
Qed.

(** The loop's test on the details is the test for an address in the
    answer. *)
Lemma address_in_details o : details_ipv4 (read_details o) = address_in o.
Proof.
  destruct o as [|[st [|[[] [|[[[[ip|]]|]]|l]]]]]; simpl; try reflexivity.
  destruct (ip =? ""); reflexivity.
Qed.

Lemma unresolved_no_address o :
  lookup_fails o \/ no_address o -> address_in o = None.
Proof. intros [H | H]; destruct H; reflexivity. Qed.

Lemma no_address_unresolved o :
  address_in o = None -> lookup_fails o \/ no_address o.
Proof.
  destruct o as [|[st [|[[] [|[[[[ip|]]|]]|l]]]]]; simpl; intro H;
    try (left; constructor); try (right; constructor).
  destruct (String.eqb_spec ip ""); [subst ip|discriminate].
  right. constructor.
Qed.

(** One turn of the loop. *)
Lemma run_processDevices_cons deviceId deviceName rest actions env w :
  run handle (processDevices ((deviceId, deviceName) :: rest) actions env) w =
  let q := GetDevice (ACCOUNT_ID env) deviceId in
  let o := fst (handle q w) in
  let w1 := snd (handle q w) in
  match details_ipv4 (read_details o) with
  | None =>
      let '(res, w2, t) := run handle (processDevices rest actions env) w1 in
      (res, w2, (q, o) :: t)
  | Some ip =>
      match run handle (manageDNSRecord (mkDevice deviceName ip) env) w1 with
      | (Ok act, w2, t2) =>
          let '(res, w3, t3) :=
            run handle (processDevices rest (actions ++ [act]) env) w2 in
          (res, w3, (q, o) :: t2 ++ t3)
      | (Exn e, w2, t2) => (Exn e, w2, (q, o) :: t2)
      end
  end.
Proof.
  cbn [processDevices]. rewrite run_bind, run_getDeviceDetails. cbv zeta.
  destruct (details_ipv4 _) as [ip|].
  - rewrite run_bind.
    destruct (run handle (manageDNSRecord _ env) _) as [[[act | e] w2] t2];
      [|reflexivity].
    destruct (run handle (processDevices rest _ env) w2) as [[res w3] t3].
    reflexivity.
  - destruct (run handle (processDevices rest _ env) _) as [[res w3] t3].
    reflexivity.
Qed.
End RunFacts.

(** ** Reconciling one device, call by call *)

Section Reconcile.
Variable World : Type.
Variable handle : Request -> World -> FetchOutcome * World.

(** Every course [manageDNSRecord] can take, with the calls it issues. *)
Lemma run_manageDNSRecord device env w :
  run handle (manageDNSRecord device env) w =
  let n := dns_name device env in
  let ip := dev_ipv4 device in
  let q1 := ListByName (ZONE_ID env) n in
  let o1 := fst (handle q1 w) in
  let w1 := snd (handle q1 w) in
  match read_first o1 with
  | Exn e => (Exn e, w1, [(q1, o1)])
  | Ok None =>
      let q2 := CreateRecord (ZONE_ID env) n ip in
      let o2 := fst (handle q2 w1) in
      (finish (ack o2) (mkAction created n ip None),
       snd (handle q2 w1), [(q1, o1); (q2, o2)])
  | Ok (Some existing) =>
      if rec_content existing =? ip
      then (Ok (mkAction no_change n ip None), w1, [(q1, o1)])
      else
        let q2 := ListByContent (ZONE_ID env) ip in
        let o2 := fst (handle q2 w1) in
        let w2 := snd (handle q2 w1) in
        match read_first o2 with
        | Exn e => (Exn e, w2, [(q1, o1); (q2, o2)])
        | Ok None =>
            let q3 := UpdateRecord (ZONE_ID env) (rec_id existing) n ip in
            let o3 := fst (handle q3 w2) in
            (finish (ack o3) (mkAction updated n ip None),
             snd (handle q3 w2), [(q1, o1); (q2, o2); (q3, o3)])
        | Ok (Some duplicate) =>
            let q3 := DeleteRecord (ZONE_ID env) (rec_id duplicate) in
            let o3 := fst (handle q3 w2) in
            let w3 := snd (handle q3 w2) in
            match ack o3 with
            | Exn e => (Exn e, w3, [(q1, o1); (q2, o2); (q3, o3)])
            | Ok _ =>
                let q4 :=
                  UpdateRecord (ZONE_ID env) (rec_id existing) n ip in
                let o4 := fst (handle q4 w3) in
                (finish (ack o4)
                   (mkAction updated n ip (Some (rec_name duplicate))),
                 snd (handle q4 w3),
                 [(q1, o1); (q2, o2); (q3, o3); (q4, o4)])
            end
        end
  end.
Proof.
  unfold manageDNSRecord. cbv zeta.
  rewrite run_bind, run_getDNSRecord.
  destruct (read_first _) as [[existing|] | e]; [| |reflexivity].
  - destruct (rec_content existing =? dev_ipv4 device); simpl negb; cbv iota;
      [reflexivity|].
    rewrite run_bind, run_findDuplicateDNSRecord.
    destruct (read_first _) as [[duplicate|] | e]; [| |reflexivity].
    + rewrite run_bind, run_deleteDNSRecord.
      destruct (ack _) as [[]|e]; [|reflexivity].
      rewrite run_bind, run_updateDNSRecord.
      destruct (ack _) as [[]|e]; reflexivity.
    + rewrite run_bind, run_updateDNSRecord.
      destruct (ack _) as [[]|e]; reflexivity.
  - rewrite run_bind, run_createDNSRecord.
    destruct (ack _) as [[]|e]; reflexivity.
Qed.
End Reconcile.

(** ** The claims that hold whatever the services answer *)

Section AnyWorld.
Variable World : Type.
Variable handle : Request -> World -> FetchOutcome * World.

(** C4.  When the record of the hostname holds another address and a record
    bound to the target address is found, the calls of the reconciliation
    are the two lookups, then the delete of the duplicate, then (unless
    the delete was rejected) the update of the existing record and nothing
    more: every update in the trace comes after the delete. *)
Theorem delete_precedes_update device env w existing duplicate w1 t1 w2 t2 :
  run handle (getDNSRecord (dns_name device env) env) w
    = (Ok (Some existing), w1, t1) ->
  rec_content existing <> dev_ipv4 device ->
  run handle (findDuplicateDNSRecord (dev_ipv4 device) env) w1
    = (Ok (Some duplicate), w2, t2) ->
  let del := DeleteRecord (ZONE_ID env) (rec_id duplicate) in
  let upd := UpdateRecord (ZONE_ID env) (rec_id existing)
               (dns_name device env) (dev_ipv4 device) in
  let t := requests (snd (run handle (manageDNSRecord device env) w)) in
  exists tail,
    t = [ListByName (ZONE_ID env) (dns_name device env);
         ListByContent (ZONE_ID env) (dev_ipv4 device); del] ++ tail /\
    (tail = [] \/ tail = [upd]) /\
    (ack (fst (handle del w2)) = Ok tt -> tail = [upd]) /\
    (forall pre post i n c,
       t = pre ++ UpdateRecord (ZONE_ID env) i n c :: post -> In del pre).
Proof.
  intros Hget Hne Hdup. cbv zeta.
  rewrite run_getDNSRecord in Hget. injection Hget as Hr1 Hw1 _.
  rewrite run_findDuplicateDNSRecord in Hdup. injection Hdup as Hr2 Hw2 _.
  rewrite run_manageDNSRecord. cbv zeta. rewrite Hr1.
  apply String.eqb_neq in Hne. rewrite Hne, Hw1, Hr2, Hw2.
  set (del := DeleteRecord (ZONE_ID env) (rec_id duplicate)).
  set (upd := UpdateRecord (ZONE_ID env) (rec_id existing)
                (dns_name device env) (dev_ipv4 device)).
  assert (Hin : forall tail pre post i n c,
    (tail = [] \/ tail = [upd]) ->
    [ListByName (ZONE_ID env) (dns_name device env);
     ListByContent (ZONE_ID env) (dev_ipv4 device); del] ++ tail
      = pre ++ UpdateRecord (ZONE_ID env) i n c :: post -> In del pre).
  { intros tail pre post i n c Ht E.
    destruct pre as [|p1 [|p2 [|p3 pre]]]; simpl in E; unfold del in E;
      try discriminate.
    fold del in E.
    inversion E; subst. simpl; auto. }
  destruct (ack (fst (handle del w2))) as [[]|e] eqn:Hack.
  - exists [upd]. split; [reflexivity|]. split; [now right|].
    split; [reflexivity|].
    intros pre post i n c E. apply (Hin [upd] pre post i n c); auto.
  - exists []. split; [reflexivity|]. split; [now left|].
    split; [discriminate|].
    intros pre post i n c E. apply (Hin [] pre post i n c); auto.
Qed.

(** C8.  A device whose directory lookup fails (rejected fetch, body that
    is no JSON, success flag off) or gives no address (no result, no
    metadata, no [ipv4], empty [ipv4]) is passed over: [getDeviceDetails]
    returns (it never throws) after its one call, the loop goes on with the
    rest of the batch from the same list of actions, and the directory call
    is the only call made for the device. *)
Theorem unresolved_device_is_skipped
    deviceId deviceName rest actions env w :
  let q := GetDevice (ACCOUNT_ID env) deviceId in
  lookup_fails (fst (handle q w)) \/ no_address (fst (handle q w)) ->
  (exists r,
     run handle (getDeviceDetails deviceId env) w
       = (Ok r, snd (handle q w), [(q, fst (handle q w))])) /\
  is_dns_call q = false /\
  run handle (processDevices ((deviceId, deviceName) :: rest) actions env) w
    = (let '(res, w2, t) :=
         run handle (processDevices rest actions env) (snd (handle q w)) in
       (res, w2, (q, fst (handle q w)) :: t)).
Proof.
  intros q Habs. split; [|split].
  - eexists. apply run_getDeviceDetails.
  - reflexivity.
  - rewrite run_processDevices_cons. cbv zeta.
    apply unresolved_no_address in Habs. fold q.
    rewrite address_in_details, Habs. reflexivity.
Qed.

(** The reply of the worker from the run of the [try] block. *)
Lemma run_worker_fetch request env w :
  run handle (worker_fetch request env) w =
  if method request =? "POST" then
    let '(res, w', t) := run handle (process_batch request env) w in
    (Ok (reply_of res), w', t)
  else (Ok (mkReply 405 (TextBody "Only POST requests are allowed")), w, []).
Proof.
  unfold worker_fetch. destruct (method request =? "POST"); simpl negb;
    cbv iota; [|reflexivity].
  rewrite run_try_catch, run_bind.
  destruct (run handle (process_batch request env) w) as [[[a | e] w1] t1];
    simpl; [rewrite app_nil_r|rewrite app_nil_r]; reflexivity.
Qed.
End AnyWorld.

(** ** The map of unique devices *)

Section UniqueDevices.
Lemma map_get_set_same k v m : map_get k (map_set k v m) = Some v.
Proof.
  induction m as [|[k' v'] m IH]; simpl.
  - now rewrite String.eqb_refl.
  - destruct (k' =? k) eqn:E; simpl.
    + now rewrite String.eqb_refl.
    + now rewrite E.
Qed.

Lemma map_get_set_other k k' v m :
  k <> k' -> map_get k' (map_set k v m) = map_get k' m.
Proof.
  intro Hne. induction m as [|[k0 v0] m IH]; simpl.
  - apply String.eqb_neq in Hne. now rewrite Hne.
  - destruct (k0 =? k) eqn:E; simpl.
    + apply String.eqb_eq in E. subst k0.
      apply String.eqb_neq in Hne. now rewrite Hne.
    + now rewrite IH.
Qed.

Lemma keys_map_set k v m k' :
  In k' (keys (map_set k v m)) <-> k' = k \/ In k' (keys m).
Proof.
  induction m as [|[k0 v0] m IH]; simpl.
  - intuition.
  - destruct (k0 =? k) eqn:E; simpl.
    + apply String.eqb_eq in E. subst k0. intuition.
    + rewrite IH. intuition.
Qed.

Lemma nodup_map_set k v m : NoDup (keys m) -> NoDup (keys (map_set k v m)).
Proof.
  induction m as [|[k0 v0] m IH]; simpl; intro H.
  - constructor; [intros []|constructor].
  - inversion H as [|x l Hnotin Hnd]; subst.
    destruct (k0 =? k) eqn:E; simpl.
    + apply String.eqb_eq in E. subst k0. now constructor.
    + constructor; [|now apply IH].
      intro Hin. apply keys_map_set in Hin. destruct Hin as [->|Hin].
      * now rewrite String.eqb_refl in E.
      * now apply Hnotin.
Qed.

Lemma map_get_in k v m : NoDup (keys m) -> In (k, v) m -> map_get k m = Some v.
Proof.
  induction m as [|[k0 v0] m IH]; simpl; intros Hnd Hin; [contradiction|].
  inversion Hnd as [|x l Hnotin Hnd']; subst.
  destruct Hin as [E | Hin].
  - injection E as -> ->. now rewrite String.eqb_refl.
  - destruct (k0 =? k) eqn:E.
    + apply String.eqb_eq in E. subst k0. exfalso. apply Hnotin.
      change k with (fst (k, v)). now apply in_map.
    + now apply IH.
Qed.

Lemma collect_app pre post m :
  collect (pre ++ post) m = (m1 <- collect pre m ;; collect post m1).
Proof.
  revert m. induction pre as [|[|[i|] [n|]] pre IH]; intro m; simpl; auto.
  destruct (negb (i =? "") && negb (n =? "")); apply IH.
Qed.

(** Without a null line the [forEach] runs to its end; it keeps the keys
    distinct and leaves alone every key that no kept entry carries. *)
Lemma collect_total es : forall m,
  ~ In JNull es ->
  exists m',
    collect es m = Ret m' /\
    (NoDup (keys m) -> NoDup (keys m')) /\
    (forall k, (forall n, In (JObj (Some k) (Some n)) es -> n = "") ->
       map_get k m' = map_get k m).
Proof.
  induction es as [|e es IH]; intros m Hnull.
  - exists m. simpl. auto.
  - assert (Hnull' : ~ In JNull es) by (intro; apply Hnull; now right).
    destruct e as [|[i|] [n|]]; simpl;
      try (destruct (IH m Hnull') as (m' & E & Hnd & Hget);
           exists m'; split; [exact E|]; split; [exact Hnd|];
           intros k Hk; apply Hget; intros n' Hin; apply Hk; now right).
    + exfalso. apply Hnull. now left.
    + destruct (negb (i =? "") && negb (n =? "")) eqn:Hkeep.
      * destruct (IH (map_set i n m) Hnull') as (m' & E & Hnd & Hget).
        exists m'. split; [exact E|]. split.
        -- intro H. apply Hnd. now apply nodup_map_set.
        -- intros k Hk. rewrite Hget by (intros n' Hin; apply Hk; now right).
           apply map_get_set_other. intros ->.
           assert (n = "") by (apply Hk; now left). subst n.
           rewrite andb_false_r in Hkeep. discriminate.
      * destruct (IH m Hnull') as (m' & E & Hnd & Hget).
        exists m'. split; [exact E|]. split; [exact Hnd|].
        intros k Hk. apply Hget. intros n' Hin. apply Hk. now right.
Qed.

(** In a batch where the entry [(i, n)] is the last one kept for the device
    identifier [i], building the map raises nothing, the map holds one
    entry per identifier, and the entry of [i] carries the name [n] and no
    other. *)
Lemma last_name_wins pre post i n :
  ~ In JNull (pre ++ post) ->
  i <> "" -> n <> "" ->
  (forall n', In (JObj (Some i) (Some n')) post -> n' = "") ->
  exists m,
    uniqueDevices (pre ++ JObj (Some i) (Some n) :: post) = Ret m /\
    NoDup (keys m) /\
    map_get i m = Some n /\
    (forall n', In (i, n') m -> n' = n).
Proof.
  intros Hnull Hi Hn Hlast. unfold uniqueDevices.
  destruct (collect_total pre [])
    as (m1 & E1 & Hnd1 & _).
  { intro H. apply Hnull, in_or_app. now left. }
  destruct (collect_total post (map_set i n m1))
    as (m2 & E2 & Hnd2 & Hget2).
  { intro H. apply Hnull, in_or_app. now right. }
  exists m2. rewrite collect_app, E1. simpl.
  apply String.eqb_neq in Hi, Hn. rewrite Hi, Hn. simpl.
  assert (Hnd : NoDup (keys m2)).
  { apply Hnd2, nodup_map_set, Hnd1. constructor. }
  assert (Hg : map_get i m2 = Some n).
  { rewrite Hget2 by exact Hlast. apply map_get_set_same. }
  repeat split; auto.
  intros n' Hin. apply map_get_in in Hin; [congruence|exact Hnd].
Qed.
End UniqueDevices.

(** ** The loop over the batch *)

Section Batch.
Variable World : Type.
Variable handle : Request -> World -> FetchOutcome * World.

Lemma run_processDevices_app pre : forall l actions env w,
  run handle (processDevices (pre ++ l) actions env) w =
  match run handle (processDevices pre actions env) w with
  | (Ok actions', w1, t1) =>
      let '(r, w2, t2) := run handle (processDevices l actions' env) w1 in
      (r, w2, t1 ++ t2)
  | (Exn e, w1, t1) => (Exn e, w1, t1)
  end.
Proof.
  induction pre as [|[deviceId deviceName] pre IH]; intros l actions env w.
  - simpl. destruct (run handle (processDevices l actions env) w)
      as [[r w2] t2]. reflexivity.
  - change (((deviceId, deviceName) :: pre) ++ l)
      with ((deviceId, deviceName) :: (pre ++ l)).
    rewrite !run_processDevices_cons. cbv zeta.
    destruct (details_ipv4 _) as [ip|].
    + destruct (run handle (manageDNSRecord _ env) _)
        as [[[act | e] w2] t2]; [|reflexivity].
      rewrite IH.
      destruct (run handle (processDevices pre _ env) w2)
        as [[[actions' | e] w3] t3]; [|reflexivity].
      destruct (run handle (processDevices l actions' env) w3)
        as [[r w4] t4].
      simpl. now rewrite <- app_assoc.
    + rewrite IH.
      destruct (run handle (processDevices pre _ env) _)
        as [[[actions' | e] w3] t3]; [|reflexivity].
      destruct (run handle (processDevices l actions' env) w3)
        as [[r w4] t4].
      reflexivity.
Qed.

(** The loop only ever appends to the list of actions. *)
Lemma processDevices_keeps devices : forall actions env w log w' t,
  run handle (processDevices devices actions env) w = (Ok log, w', t) ->
  exists more, log = actions ++ more.
Proof.
  induction devices as [|[deviceId deviceName] devices IH];
    intros actions env w log w' t H.
  - simpl in H. injection H as <- _ _. exists []. now rewrite app_nil_r.
  - rewrite run_processDevices_cons in H. cbv zeta in H.
    destruct (details_ipv4 _) as [ip|].
    + destruct (run handle (manageDNSRecord _ env) _)
        as [[[act | e] w2] t2]; [|discriminate].
      destruct (run handle (processDevices devices _ env) w2)
        as [[res w3] t3] eqn:E.
      injection H as -> _ _. apply IH in E. destruct E as [more ->].
      exists (act :: more). now rewrite <- app_assoc.
    + destruct (run handle (processDevices devices _ env) _)
        as [[res w3] t3] eqn:E.
      injection H as -> _ _. now apply IH in E.
Qed.

Lemma run_process_batch request env entries devices w :
  decoded request = Some entries ->
  uniqueDevices entries = Ret devices ->
  run handle (process_batch request env) w =
  run handle (processDevices devices [] env) w.
Proof.
  intros Hd Hu. unfold process_batch. rewrite Hd, Hu. reflexivity.
Qed.
End Batch.

(** ** Failures of the DNS store *)

(** Splits a fact [H] about a run of [manageDNSRecord] into its courses. *)
Ltac manage_cases H :=
  rewrite run_manageDNSRecord in H; cbv zeta in H;
  repeat match type of H with
  | context [match read_first ?o with _ => _ end] =>
      destruct (read_first o) as [[?|]|?] eqn:?
  | context [if ?b then _ else _] => destruct b eqn:?
  | context [match ack ?o with _ => _ end] =>
      destruct (ack o) as [[]|?] eqn:?
  | context [finish (ack ?o) _] => destruct (ack o) as [[]|?] eqn:?
  end;
  cbn [finish] in H; injection H as ? ? ?; subst.

Section StoreFailures.
Variable World : Type.
Variable handle : Request -> World -> FetchOutcome * World.

Lemma read_first_rejected o e :
  o = FetchRejects -> read_first o = Exn e -> e = NetworkError.
Proof. intros -> H. simpl in H. congruence. Qed.

Lemma ack_rejected o : o = FetchRejects -> ack o = Exn NetworkError.
Proof. now intros ->. Qed.

Lemma read_first_refused o : refused o -> read_first o = Ok None.
Proof.
  intros (r & d & -> & Hb & Hs). simpl. now rewrite Hb, Hs.
Qed.

Lemma ack_refused o : refused o -> ack o = Ok tt.
Proof. now intros (r & d & -> & _). Qed.

(** A rejected call makes the reconciliation throw. *)
Lemma rejection_throws device env w res w' t :
  run handle (manageDNSRecord device env) w = (res, w', t) ->
  (exists q, In (q, FetchRejects) t) ->
  res = Exn NetworkError.
Proof.
  intros H [q Hin]. manage_cases H; simpl in Hin;
    repeat match goal with
    | Hin : _ \/ _ |- _ => destruct Hin as [Hin | Hin]
    | Hin : False |- _ => contradiction
    | Hin : (_, _) = (_, FetchRejects) |- _ =>
        injection Hin as _ Hin
    end;
    repeat match goal with
    | Hin : ?o = FetchRejects, E : read_first ?o = _ |- _ =>
        rewrite Hin in E; simpl in E; try discriminate;
        injection E as <-
    | Hin : ?o = FetchRejects, E : ack ?o = _ |- _ =>
        rewrite Hin in E; simpl in E; try discriminate;
        injection E as <-
    end; reflexivity.
Qed.

(** A lookup answered with a body that is no JSON makes the reconciliation
    throw. *)
Lemma unreadable_lookup_throws device env w res w' t :
  run handle (manageDNSRecord device env) w = (res, w', t) ->
  (exists q r, In (q, Responded r) t /\ is_mutation q = false /\
               body r = NotJson) ->
  res = Exn SyntaxError.
Proof.
  intros H (q & r & Hin & Hq & Hb). manage_cases H; simpl in Hin;
    repeat match goal with
    | Hin : _ \/ _ |- _ => destruct Hin as [Hin | Hin]
    | Hin : False |- _ => contradiction
    | Hin : (_, _) = (_, _) |- _ => injection Hin as <- Hin
    end; try discriminate Hq;
    repeat match goal with
    | Hin : ?o = Responded r, E : read_first ?o = _ |- _ =>
        rewrite Hin in E; simpl in E; rewrite Hb in E; try discriminate E;
        injection E as <-
    end; reflexivity.
Qed.

(** Answers of success: false abort nothing: the lookup reads as "no
    record", the create goes out and its answer is not looked at. *)
Lemma refusals_still_create device env w res w' t :
  run handle (manageDNSRecord device env) w = (res, w', t) ->
  (forall q o, In (q, o) t -> refused o) ->
  res = Ok (mkAction created (dns_name device env) (dev_ipv4 device) None) /\
  requests t =
    [ListByName (ZONE_ID env) (dns_name device env);
     CreateRecord (ZONE_ID env) (dns_name device env) (dev_ipv4 device)].
Proof.
  intros H Hall.
  manage_cases H;
    try (match goal with
         | E : read_first ?o = _ |- _ =>
             rewrite read_first_refused in E
               by (eapply Hall; simpl; eauto);
             discriminate
         end).
  - split; reflexivity.
  - match goal with
    | E : ack ?o = Exn _ |- _ =>
        rewrite ack_refused in E by (eapply Hall; simpl; eauto);
        discriminate
    end.
Qed.
End StoreFailures.

(** ** Mutation responses are not looked at *)

Section Blind.
Lemma blind_bind A B (p : Prog A) (f : A -> Prog B) :
  blind p -> (forall a, blind (f a)) -> blind (bind p f).
Proof.
  intros Hp Hf. induction Hp as [a | e | r k Hk IH Heq]; simpl.
  - apply Hf.
  - constructor.
  - constructor; [exact IH|].
    intros Hr r1 r2. now rewrite (Heq Hr r1 r2).
Qed.

Lemma blind_try_catch A (p : Prog A) (h : Error -> Prog A) :
  blind p -> (forall e, blind (h e)) -> blind (try_catch p h).
Proof.
  intros Hp Hh. induction Hp as [a | e | r k Hk IH Heq]; simpl.
  - constructor.
  - apply Hh.
  - constructor; [exact IH|].
    intros Hr r1 r2. now rewrite (Heq Hr r1 r2).
Qed.

Lemma blind_lookup r : is_mutation r = false -> blind (fetch r).
Proof.
  intro Hr. constructor.
  - intros [|resp]; constructor.
  - rewrite Hr. discriminate.
Qed.

Lemma blind_json r : blind (json r).
Proof. unfold json. destruct (body r); constructor. Qed.

Lemma blind_first_result d : blind (first_result d).
Proof.
  unfold first_result.
  destruct (success d); [destruct (result d) as [| |[|]]|]; constructor.
Qed.

(** A call whose response is dropped. *)
Lemma blind_dropped r : blind (fetch r ;;; Ret tt).
Proof.
  constructor.
  - intros [|resp]; constructor.
  - reflexivity.
Qed.

Lemma blind_getDNSRecord name env : blind (getDNSRecord name env).
Proof.
  unfold getDNSRecord. apply blind_bind; [now apply blind_lookup|].
  intro r. apply blind_bind; [apply blind_json|apply blind_first_result].
Qed.

Lemma blind_findDuplicateDNSRecord ipv4 env :
  blind (findDuplicateDNSRecord ipv4 env).
Proof.
  unfold findDuplicateDNSRecord. apply blind_bind; [now apply blind_lookup|].
  intro r. apply blind_bind; [apply blind_json|apply blind_first_result].
Qed.

Lemma blind_manageDNSRecord device env : blind (manageDNSRecord device env).
Proof.
  unfold manageDNSRecord. cbv zeta.
  apply blind_bind; [apply blind_getDNSRecord|].
  intros [existing|].
  - destruct (negb _); [|constructor].
    apply blind_bind; [apply blind_findDuplicateDNSRecord|].
    intros [duplicate|].
    + apply blind_bind; [apply blind_dropped|]. intros _.
      apply blind_bind; [apply blind_dropped|]. intros _. constructor.
    + apply blind_bind; [apply blind_dropped|]. intros _. constructor.
  - apply blind_bind; [apply blind_dropped|]. intros _. constructor.
Qed.

Lemma blind_getDeviceDetails deviceId env :
  blind (getDeviceDetails deviceId env).
Proof.
  unfold getDeviceDetails. apply blind_try_catch; [|constructor].
  apply blind_bind; [now apply blind_lookup|].
  intro r. apply blind_bind; [apply blind_json|].
  intro d. destruct (negb _); constructor.
Qed.

Lemma blind_processDevices devices : forall actions env,
  blind (processDevices devices actions env).
Proof.
  induction devices as [|[deviceId deviceName] devices IH];
    intros actions env; cbn [processDevices]; [constructor|].
  apply blind_bind; [apply blind_getDeviceDetails|].
  intro d. destruct (details_ipv4 d); [|apply IH].
  apply blind_bind; [apply blind_manageDNSRecord|]. intro a. apply IH.
Qed.

Lemma blind_collect es : forall m, blind (collect es m).
Proof.
  induction es as [|[|[i|] [n|]] es IH]; intro m; simpl;
    try constructor; try apply IH.
  destruct (_ && _); apply IH.
Qed.

Lemma blind_worker_fetch request env : blind (worker_fetch request env).
Proof.
  unfold worker_fetch. destruct (negb _); [constructor|].
  apply blind_try_catch; [|constructor].
  apply blind_bind; [|constructor].
  unfold process_batch. destruct (decoded request); [|constructor].
  apply blind_bind; [apply blind_collect|].
  intro m. apply blind_processDevices.
Qed.

(** A blind program runs the same whether the mutations' responses report
    success or failure: same result, same final world, same requests. *)
Lemma run_blind World (handle : Request -> World -> FetchOutcome * World)
    A (p : Prog A) :
  blind p ->
  forall w,
    fst (run (failing_mutations handle) p w) = fst (run handle p w) /\
    requests (snd (run (failing_mutations handle) p w))
      = requests (snd (run handle p w)).
Proof.
  induction 1 as [a | e | r k Hk IH Heq]; intro w; simpl; auto.
  unfold failing_mutations at 1 3.
  destruct (handle r w) as [o w1].
  assert (Hstep : forall o',
    k o' = k o ->
    fst (let '(res, w2, t) := run (failing_mutations handle) (k o') w1 in
         (res, w2, (r, o') :: t))
      = fst (let '(res, w2, t) := run handle (k o) w1 in
             (res, w2, (r, o) :: t)) /\
    requests
      (snd (let '(res, w2, t) := run (failing_mutations handle) (k o') w1 in
            (res, w2, (r, o') :: t)))
      = requests
          (snd (let '(res, w2, t) := run handle (k o) w1 in
                (res, w2, (r, o) :: t)))).
  { intros o' E. rewrite E. destruct (IH o w1) as [E1 E2].
    destruct (run (failing_mutations handle) (k o) w1) as [[res w2] t].
    destruct (run handle (k o) w1) as [[res' w2'] t'].
    simpl in *. now rewrite E1, E2. }
  destruct (is_mutation r) eqn:Hr; [|now apply Hstep].
  destruct o as [|resp]; [now apply Hstep|].
  apply Hstep. now apply Heq.
Qed.

(** X16.  The reply of the worker is the same when every mutation's response
    is replaced by a report of failure. *)
Lemma worker_deaf_to_mutation_responses
    World (handle : Request -> World -> FetchOutcome * World)
    request env w :
  fst (run (failing_mutations handle) (worker_fetch request env) w) =
  fst (run handle (worker_fetch request env) w).
Proof. apply run_blind, blind_worker_fetch. Qed.
End Blind.

Section Outcomes.
Variable World : Type.
Variable handle : Request -> World -> FetchOutcome * World.

(** C2, as the code has it.  Take a device of the batch whose turn comes
    after the devices [pre] were processed and whose address the directory
    gave.  (a) If one of the DNS calls of its reconciliation is rejected,
    or one of its lookups is answered with a body that is no JSON, the
    reconciliation throws.  (b) Whenever it throws, the batch ends there:
    the reply is 500 with the plain text and no list of actions, the trace
    stops at the device's last call, and the world stays as that call left
    it.  (c) When instead every call of the reconciliation is answered by
    JSON with the success flag off, nothing is aborted: the lookup is read
    as "no record", the calls are the lookup and the create, the
    reconciliation returns a [created] action, the loop appends it to the
    list and goes on with the next device, and every list the loop returns
    holds it. *)
Theorem dns_failure_aborts_batch
    request env entries pre deviceId deviceName rest
    w actions w0 t0 ip res w2 t2 :
  method request = "POST" ->
  decoded request = Some entries ->
  uniqueDevices entries = Ret (pre ++ (deviceId, deviceName) :: rest) ->
  run handle (processDevices pre [] env) w = (Ok actions, w0, t0) ->
  let q := GetDevice (ACCOUNT_ID env) deviceId in
  let n := (deviceName ++ "." ++ DOMAIN_SUFFIX env)%string in
  address_in (fst (handle q w0)) = Some ip ->
  run handle (manageDNSRecord (mkDevice deviceName ip) env)
      (snd (handle q w0)) = (res, w2, t2) ->
  ((exists c, In (c, FetchRejects) t2) -> res = Exn NetworkError) /\
  ((exists c r, In (c, Responded r) t2 /\ is_mutation c = false /\
                body r = NotJson) -> res = Exn SyntaxError) /\
  (forall e, res = Exn e ->
     run handle (worker_fetch request env) w =
     (Ok (mkReply 500 (TextBody "Error processing data")), w2,
      t0 ++ (q, fst (handle q w0)) :: t2)) /\
  ((forall c o, In (c, o) t2 -> refused o) ->
     let act := mkAction created n ip None in
     res = Ok act /\
     requests t2 =
       [ListByName (ZONE_ID env) n; CreateRecord (ZONE_ID env) n ip] /\
     run handle
         (processDevices ((deviceId, deviceName) :: rest) actions env) w0 =
       (let '(r, w3, t3) :=
          run handle (processDevices rest (actions ++ [act]) env) w2 in
        (r, w3, (q, fst (handle q w0)) :: t2 ++ t3)) /\
     (forall log w3 t3,
        run handle
            (processDevices ((deviceId, deviceName) :: rest) actions env) w0
          = (Ok log, w3, t3) ->
        In act log)).
Proof.
  intros Hm Hd Hu Hpre q n Hip Hrun.
  assert (Hstep : forall act, res = Ok act ->
            run handle
                (processDevices ((deviceId, deviceName) :: rest) actions env)
                w0 =
            (let '(r, w3, t3) :=
               run handle (processDevices rest (actions ++ [act]) env) w2 in
             (r, w3, (q, fst (handle q w0)) :: t2 ++ t3))).
  { intros act ->. rewrite run_processDevices_cons. cbv zeta. fold q.
    rewrite address_in_details, Hip, Hrun. reflexivity. }
  split; [|split; [|split]].
  - intro Hrej. eapply rejection_throws; eauto.
  - intro Hbad. eapply unreadable_lookup_throws; eauto.
  - intros e ->. unfold worker_fetch. rewrite Hm. simpl negb. cbv iota.
    rewrite run_try_catch, run_bind.
    rewrite (@run_process_batch _ handle request env _ _ w Hd Hu).
    rewrite run_processDevices_app, Hpre, run_processDevices_cons.
    cbv zeta. fold q. rewrite address_in_details, Hip, Hrun. simpl.
    now rewrite app_nil_r.
  - intros Hall act.
    destruct (@refusals_still_create _ _ _ _ _ _ _ _ Hrun Hall) as [Hres Hreq].
    split; [exact Hres|]. split; [exact Hreq|].
    split; [now apply Hstep|].
    intros log w3 t3 Hloop. rewrite (Hstep act Hres) in Hloop.
    destruct (run handle (processDevices rest (actions ++ [act]) env) w2)
      as [[r w4] t4] eqn:E.
    injection Hloop as -> _ _.
    apply processDevices_keeps in E. destruct E as [more ->].
    apply in_or_app. left. apply in_or_app. right. now left.
Qed.

(** C10.  What a mutation's response says never reaches the action.  The
    course of [manageDNSRecord] does not depend on the response to a
    create, an update or a delete (status and body alike); and when the
    reconciliation issued a mutation and every mutation was answered with
    a report of failure, it still returns a [created] or an [updated]
    action, which the loop puts into the list the batch returns. *)
Theorem failed_mutation_still_reported device env :
  blind (manageDNSRecord device env) /\
  forall w res w' t,
    run handle (manageDNSRecord device env) w = (res, w', t) ->
    (exists q o, In (q, o) t /\ is_mutation q = true) ->
    (forall q o, In (q, o) t -> is_mutation q = true -> reports_failure o) ->
    exists act,
      res = Ok act /\
      (action act = created \/ action act = updated) /\
      (forall deviceId rest actions w0 log w3 t3,
         details_ipv4
           (read_details
              (fst (handle (GetDevice (ACCOUNT_ID env) deviceId) w0)))
           = Some (dev_ipv4 device) ->
         snd (handle (GetDevice (ACCOUNT_ID env) deviceId) w0) = w ->
         run handle
             (processDevices ((deviceId, dev_name device) :: rest)
                actions env)
             w0 = (Ok log, w3, t3) ->
         In act log).
Proof.
  split; [apply blind_manageDNSRecord|].
  intros w res w' t Hrun (q & o & Hin & Hq) Hfail.
  assert (Hres : exists act,
            res = Ok act /\ (action act = created \/ action act = updated)).
  { pose proof Hrun as H. manage_cases H; simpl in Hin;
      repeat match goal with
      | Hin : _ \/ _ |- _ => destruct Hin as [Hin | Hin]
      | Hin : False |- _ => contradiction
      | Hin : (_, _) = (_, _) |- _ => injection Hin as <- <-
      end; try discriminate;
      try (eexists; split; [reflexivity|simpl; auto]);
      exfalso;
      match goal with
      | E : ack (fst (handle ?m ?x)) = Exn _ |- _ =>
          destruct (Hfail m (fst (handle m x))) as (r & Hr & _);
          [simpl; auto 6 | reflexivity | rewrite Hr in E; discriminate]
      end. }
  destruct Hres as (act & -> & Hkind). exists act.
  split; [reflexivity|]. split; [exact Hkind|].
  intros deviceId rest actions w0 log w3 t3 Hip Hw Hloop.
  rewrite run_processDevices_cons in Hloop. cbv zeta in Hloop.
  rewrite Hip, Hw in Hloop.
  destruct device as [name ip]. cbn [dev_name dev_ipv4] in Hloop.
  rewrite Hrun in Hloop.
  destruct (run handle (processDevices rest (actions ++ [act]) env) w')
    as [[r w4] t4] eqn:E.
  injection Hloop as -> _ _.
  apply processDevices_keeps in E. destruct E as [more ->].
  apply in_or_app. left. apply in_or_app. right. now left.
Qed.
End Outcomes.

(** ** Reconciling against the reference zone *)

Section Zone.
Lemma cloudflare_healthy q w : faults w = [] -> cloudflare q w = serve q w.
Proof. intro H. unfold cloudflare. now rewrite H. Qed.

Lemma filter_unique A (p : A -> bool) (l : list A) (x : A) :
  NoDup l -> In x l -> p x = true ->
  (forall y, In y l -> p y = true -> y = x) ->
  filter p l = [x].
Proof.
  induction l as [|a l IH]; intros Hnd Hin Hp Huniq; [contradiction|].
  inversion Hnd as [|a' l' Hnotin Hnd']; subst. simpl.
  destruct (p a) eqn:Hpa.
  - assert (a = x) by (apply Huniq; [now left|assumption]). subst a.
    f_equal. destruct (filter p l) as [|y l'] eqn:E; [reflexivity|].
    assert (Hy : In y (filter p l)) by (rewrite E; now left).
    apply filter_In in Hy. destruct Hy as [Hy Hpy].
    assert (y = x) by (apply Huniq; [now right|assumption]). subst y.
    contradiction.
  - destruct Hin as [-> | Hin]; [congruence|].
    apply IH; auto. intros y Hy. apply Huniq. now right.
Qed.

Lemma same_id_same_record z r1 r2 :
  NoDup (map rec_id z) -> In r1 z -> In r2 z ->
  rec_id r1 = rec_id r2 -> r1 = r2.
Proof.
  induction z as [|a z IH]; simpl; intros Hnd H1 H2 E; [contradiction|].
  inversion Hnd as [|x l Hnotin Hnd']; subst.
  destruct H1 as [-> | H1], H2 as [-> | H2]; auto.
  - exfalso. apply Hnotin. rewrite E. now apply in_map.
  - exfalso. apply Hnotin. rewrite <- E. now apply in_map.
Qed.

Lemma has_id_in z r : In r z -> has_id (rec_id r) z = true.
Proof.
  intro H. unfold has_id. apply existsb_exists. exists r.
  split; [assumption|apply String.eqb_refl].
Qed.

Lemma ids_overwrite i n c z :
  map rec_id (overwrite_id i n c z) = map rec_id z.
Proof.
  unfold overwrite_id. rewrite map_map. apply map_ext_in. intros r _.
  destruct (rec_id r =? i) eqn:E; [|reflexivity].
  apply String.eqb_eq in E. now rewrite E.
Qed.

Lemma in_overwrite i n c z r :
  In r (overwrite_id i n c z) ->
  (r = mkRecord i "A" n c /\ has_id i z = true) \/
  (In r z /\ rec_id r <> i).
Proof.
  unfold overwrite_id. rewrite in_map_iff. intros (r0 & E & Hin).
  destruct (rec_id r0 =? i) eqn:Hi.
  - left. split; [now symmetry|]. apply String.eqb_eq in Hi. subst i.
    now apply has_id_in.
  - right. subst r0. split; [assumption|now apply String.eqb_neq].
Qed.

Lemma overwrite_in i n c z r :
  In r z -> rec_id r = i -> In (mkRecord i "A" n c) (overwrite_id i n c z).
Proof.
  intros Hin E. unfold overwrite_id. apply in_map_iff. exists r.
  split; [|assumption]. apply String.eqb_eq in E. now rewrite E.
Qed.

Lemma in_delete i z r : In r (delete_id i z) <-> In r z /\ rec_id r <> i.
Proof.
  unfold delete_id. rewrite filter_In. rewrite negb_true_iff.
  now rewrite String.eqb_neq.
Qed.

Lemma nodup_ids_delete i z :
  NoDup (map rec_id z) -> NoDup (map rec_id (delete_id i z)).
Proof.
  induction z as [|a z IH]; simpl; intro H; [constructor|].
  inversion H as [|x l Hnotin Hnd]; subst.
  destruct (negb (rec_id a =? i)); simpl; [|now apply IH].
  constructor; [|now apply IH].
  intro Hin. apply Hnotin. apply in_map_iff in Hin.
  destruct Hin as (r & E & Hr). apply in_delete in Hr.
  rewrite <- E. apply in_map. tauto.
Qed.

(** Overwriting the one record of a hostname leaves the hostname with one
    A record. *)
Lemma overwrite_named_once z ex n c :
  NoDup (map rec_id z) -> In ex z ->
  (forall r, In r z -> is_A r = true -> rec_name r = n -> r = ex) ->
  a_named n (overwrite_id (rec_id ex) n c z) = [mkRecord (rec_id ex) "A" n c].
Proof.
  intros Hnd Hin Huniq. unfold a_named. apply filter_unique.
  - apply (NoDup_map_inv rec_id). now rewrite ids_overwrite.
  - now apply overwrite_in with (r := ex).
  - simpl. apply String.eqb_refl.
  - intros r Hr Hp. apply andb_true_iff in Hp. destruct Hp as [HA Hn].
    apply String.eqb_eq in Hn.
    apply in_overwrite in Hr. destruct Hr as [[-> _] | [Hr Hid]]; auto.
    exfalso. apply Hid. now rewrite (Huniq r Hr HA Hn).
Qed.

Lemma a_named_first n z r l :
  a_named n z = r :: l -> In r z /\ is_A r = true /\ rec_name r = n.
Proof.
  intro E. assert (H : In r (a_named n z)) by (rewrite E; now left).
  apply filter_In in H. destruct H as [H Hp].
  apply andb_true_iff in Hp. destruct Hp as [HA Hn].
  apply String.eqb_eq in Hn. auto.
Qed.

Lemma a_bound_first c z r l :
  a_bound c z = r :: l -> In r z /\ is_A r = true /\ rec_content r = c.
Proof.
  intro E. assert (H : In r (a_bound c z)) by (rewrite E; now left).
  apply filter_In in H. destruct H as [H Hp].
  apply andb_true_iff in Hp. destruct Hp as [HA Hn].
  apply String.eqb_eq in Hn. auto.
Qed.

Lemma a_named_steady z r :
  steady z -> In r z -> is_A r = true -> a_named (rec_name r) z = [r].
Proof.
  intros (Hnd & Hname & _) Hin HA. apply filter_unique; auto.
  - now apply (NoDup_map_inv rec_id).
  - rewrite HA. simpl. apply String.eqb_refl.
  - intros y Hy Hp. apply andb_true_iff in Hp. destruct Hp as [HyA Hn].
    apply String.eqb_eq in Hn. now apply Hname.
Qed.

Lemma a_bound_steady z r :
  steady z -> In r z -> is_A r = true -> a_bound (rec_content r) z = [r].
Proof.
  intros (Hnd & _ & Hcont) Hin HA. apply filter_unique; auto.
  - now apply (NoDup_map_inv rec_id).
  - rewrite HA. simpl. apply String.eqb_refl.
  - intros y Hy Hp. apply andb_true_iff in Hp. destruct Hp as [HyA Hn].
    apply String.eqb_eq in Hn. now apply Hcont.
Qed.
End Zone.

Section ReferenceZone.
Variable w : World.
Variable device : Device.
Variable env : Env.
Hypothesis Hhealthy : faults w = [].

Let n := dns_name device env.
Let ip := dev_ipv4 device.
Let zid := ZONE_ID env.

(** The record of the hostname already holds the address: one lookup and
    nothing else. *)
Lemma run_no_change existing others :
  a_named n (zone w) = existing :: others ->
  rec_content existing = ip ->
  run cloudflare (manageDNSRecord device env) w =
  (Ok (mkAction no_change n ip None), w,
   [(ListByName zid n, answer (ResList (existing :: others)))]).
Proof.
  intros Hex Hc. rewrite run_manageDNSRecord. cbv zeta. fold n ip zid.
  rewrite cloudflare_healthy by assumption. cbn [serve fst snd].
  rewrite Hex. cbn [read_first answer body success result].
  apply String.eqb_eq in Hc. now rewrite Hc.
Qed.

(** No record of the hostname: a lookup and a create. *)
Lemma run_create :
  a_named n (zone w) = [] ->
  let r := mkRecord (fresh_id (next_id w)) "A" n ip in
  run cloudflare (manageDNSRecord device env) w =
  (Ok (mkAction created n ip None),
   mkWorld (zone w ++ [r]) (directory w) (S (next_id w)) (faults w),
   [(ListByName zid n, answer (ResList []));
    (CreateRecord zid n ip, answer (ResList [r]))]).
Proof.
  intros Hex r. rewrite run_manageDNSRecord. cbv zeta. fold n ip zid.
  rewrite !cloudflare_healthy by assumption. cbn [serve fst snd].
  rewrite Hex. reflexivity.
Qed.

(** The record of the hostname holds another address and a record bound
    to the target address exists: delete it, then update. *)
Lemma run_update_after_delete existing duplicate :
  steady (zone w) ->
  In existing (zone w) -> is_A existing = true -> rec_name existing = n ->
  rec_content existing <> ip ->
  In duplicate (zone w) -> is_A duplicate = true ->
  rec_content duplicate = ip ->
  exists w' t,
    run cloudflare (manageDNSRecord device env) w =
      (Ok (mkAction updated n ip (Some (rec_name duplicate))), w', t) /\
    requests t =
      [ListByName zid n; ListByContent zid ip;
       DeleteRecord zid (rec_id duplicate);
       UpdateRecord zid (rec_id existing) n ip] /\
    zone w' =
      overwrite_id (rec_id existing) n ip
        (delete_id (rec_id duplicate) (zone w)) /\
    faults w' = [].
Proof.
  intros Hst Hex HexA Hexn Hexc Hdup HdupA Hdupc.
  assert (Hids : rec_id existing <> rec_id duplicate).
  { intro E. apply Hexc. rewrite <- Hdupc. f_equal.
    destruct Hst as (Hnd & _). eapply same_id_same_record; eauto. }
  assert (H1 : cloudflare (ListByName zid n) w
               = (answer (ResList [existing]), w)).
  { rewrite cloudflare_healthy by assumption. cbn [serve].
    now rewrite <- Hexn, a_named_steady. }
  assert (H2 : cloudflare (ListByContent zid ip) w
               = (answer (ResList [duplicate]), w)).
  { rewrite cloudflare_healthy by assumption. cbn [serve].
    now rewrite <- Hdupc, a_bound_steady. }
  set (w3 := mkWorld (delete_id (rec_id duplicate) (zone w)) (directory w)
               (next_id w) (faults w)).
  assert (H3 : cloudflare (DeleteRecord zid (rec_id duplicate)) w
               = (answer ResNull, w3)).
  { rewrite cloudflare_healthy by assumption. cbn [serve].
    now rewrite has_id_in. }
  set (w4 := mkWorld (overwrite_id (rec_id existing) n ip (zone w3))
               (directory w3) (next_id w3) (faults w3)).
  assert (H4 : cloudflare (UpdateRecord zid (rec_id existing) n ip) w3
               = (answer (ResList [mkRecord (rec_id existing) "A" n ip]),
                  w4)).
  { rewrite cloudflare_healthy by assumption. cbn [serve].
    rewrite has_id_in; [reflexivity|]. apply in_delete. auto. }
  exists w4. eexists. split; [|split; [|split]].
  - rewrite run_manageDNSRecord. cbv zeta. fold n ip zid.
    rewrite H1. cbn [fst snd read_first answer body success result].
    apply String.eqb_neq in Hexc. rewrite Hexc.
    rewrite H2. cbn [fst snd read_first answer body success result].
    rewrite H3. cbn [fst snd ack answer].
    rewrite H4. cbn [fst snd ack answer finish]. reflexivity.
  - reflexivity.
  - reflexivity.
  - exact Hhealthy.
Qed.

(** The record of the hostname holds another address and no record is
    bound to the target address: update. *)
Lemma run_update_alone existing :
  steady (zone w) ->
  In existing (zone w) -> is_A existing = true -> rec_name existing = n ->
  rec_content existing <> ip ->
  a_bound ip (zone w) = [] ->
  exists w' t,
    run cloudflare (manageDNSRecord device env) w =
      (Ok (mkAction updated n ip None), w', t) /\
    requests t =
      [ListByName zid n; ListByContent zid ip;
       UpdateRecord zid (rec_id existing) n ip] /\
    zone w' = overwrite_id (rec_id existing) n ip (zone w) /\
    faults w' = [].
Proof.
  intros Hst Hex HexA Hexn Hexc Hnone.
  assert (H1 : cloudflare (ListByName zid n) w
               = (answer (ResList [existing]), w)).
  { rewrite cloudflare_healthy by assumption. cbn [serve].
    now rewrite <- Hexn, a_named_steady. }
  assert (H2 : cloudflare (ListByContent zid ip) w
               = (answer (ResList []), w)).
  { rewrite cloudflare_healthy by assumption. cbn [serve].
    now rewrite Hnone. }
  set (w3 := mkWorld (overwrite_id (rec_id existing) n ip (zone w))
               (directory w) (next_id w) (faults w)).
  assert (H3 : cloudflare (UpdateRecord zid (rec_id existing) n ip) w
               = (answer (ResList [mkRecord (rec_id existing) "A" n ip]),
                  w3)).
  { rewrite cloudflare_healthy by assumption. cbn [serve].
    now rewrite has_id_in. }
  exists w3. eexists. split; [|split; [|split]].
  - rewrite run_manageDNSRecord. cbv zeta. fold n ip zid.
    rewrite H1. cbn [fst snd read_first answer body success result].
    apply String.eqb_neq in Hexc. rewrite Hexc.
    rewrite H2. cbn [fst snd read_first answer body success result].
    rewrite H3. cbn [fst snd ack answer finish]. reflexivity.
  - reflexivity.
  - reflexivity.
  - exact Hhealthy.
Qed.
End ReferenceZone.

Section Invariant.
Lemma filter_none A (p : A -> bool) (l : list A) :
  (forall x, In x l -> p x = false) -> filter p l = [].
Proof.
  induction l as [|a l IH]; intro H; simpl; [reflexivity|].
  rewrite (H a) by now left. apply IH. intros x Hx. apply H. now right.
Qed.

(** After the update, with or without a delete before it, the hostname
    has its one record and the address is bound to no other hostname. *)
Lemma updated_zone_reconciled z existing n ip (keep : DNSRecord -> bool) :
  steady z ->
  In existing z -> is_A existing = true -> rec_name existing = n ->
  keep existing = true ->
  (forall r, In r z -> is_A r = true -> rec_content r = ip ->
     keep r = false) ->
  let z' := overwrite_id (rec_id existing) n ip (filter keep z) in
  a_named n z' = [mkRecord (rec_id existing) "A" n ip] /\
  reconciled n ip z'.
Proof.
  intros (Hnd & Hname & Hcont) Hex HexA Hexn Hkeep Hgone z'.
  assert (Hnd' : NoDup (map rec_id (filter keep z))).
  { clear - Hnd. induction z as [|a z IH]; simpl; [constructor|].
    inversion Hnd as [|x l Hnotin Hnd']; subst.
    destruct (keep a); simpl; [|now apply IH].
    constructor; [|now apply IH].
    intro Hin. apply Hnotin. apply in_map_iff in Hin.
    destruct Hin as (r & E & Hr). apply filter_In in Hr.
    rewrite <- E. apply in_map. tauto. }
  assert (Hone : a_named n z' = [mkRecord (rec_id existing) "A" n ip]).
  { apply overwrite_named_once; auto.
    - apply filter_In. auto.
    - intros r Hr HA Hn. apply filter_In in Hr.
      apply Hname; try tauto. congruence. }
  split; [exact Hone|]. split; [now rewrite Hone|].
  intros r Hr HA Hc. apply in_overwrite in Hr.
  destruct Hr as [[-> _] | [Hr _]]; [reflexivity|].
  apply filter_In in Hr. destruct Hr as [Hr Hk].
  rewrite (Hgone r Hr HA Hc) in Hk. discriminate.
Qed.

Lemma filter_keep_all A (l : list A) : filter (fun _ => true) l = l.
Proof. induction l as [|a l IH]; simpl; congruence. Qed.

(** X11.  In a steady zone that has a record for the hostname, reconciling
    returns an action other than [created] and leaves the hostname with
    exactly one A record and the address bound to no other hostname. *)
Lemma existing_hostname_reconciled w device env :
  faults w = [] ->
  steady (zone w) ->
  a_named (dns_name device env) (zone w) <> [] ->
  exists act w' t,
    run cloudflare (manageDNSRecord device env) w = (Ok act, w', t) /\
    action act <> created /\
    reconciled (dns_name device env) (dev_ipv4 device) (zone w').
Proof.
  intros Hf Hst Hsome.
  destruct (a_named (dns_name device env) (zone w)) as [|ex others] eqn:E;
    [congruence|]. clear Hsome.
  destruct (a_named_first _ _ _ _ E) as (Hex & HexA & Hexn).
  pose proof (a_named_steady _ _ Hst Hex HexA) as E1. rewrite Hexn in E1.
  destruct (string_dec (rec_content ex) (dev_ipv4 device)) as [Hc | Hc].
  - eexists. exists w. eexists. split; [now apply (run_no_change w device env Hf ex others E)|].
    split; [discriminate|]. split; [now rewrite E1|].
    intros r Hr HA Hrc. destruct Hst as (_ & _ & Hcont).
    rewrite (Hcont r ex); auto. congruence.
  - destruct (a_bound (dev_ipv4 device) (zone w)) as [|dup l] eqn:E2.
    + destruct (run_update_alone w device env Hf ex Hst Hex HexA Hexn Hc E2)
        as (w' & t & Hrun & _ & Hz & _).
      eexists. exists w'. exists t. split; [exact Hrun|].
      split; [discriminate|]. rewrite Hz.
      rewrite <- (filter_keep_all _ (zone w)).
      apply updated_zone_reconciled; auto.
      intros r Hr HA Hrc. exfalso.
      assert (Hin : In r (a_bound (dev_ipv4 device) (zone w))).
      { apply filter_In. split; [assumption|]. rewrite HA. simpl.
        now apply String.eqb_eq. }
      now rewrite E2 in Hin.
    + destruct (a_bound_first _ _ _ _ E2) as (Hdup & HdupA & Hdupc).
      destruct (run_update_after_delete w device env Hf ex dup Hst Hex HexA
                  Hexn Hc Hdup HdupA Hdupc)
        as (w' & t & Hrun & _ & Hz & _).
      eexists. exists w'. exists t. split; [exact Hrun|].
      split; [discriminate|]. rewrite Hz. unfold delete_id.
      apply updated_zone_reconciled; auto.
      * apply negb_true_iff, String.eqb_neq. intro Eid. apply Hc.
        rewrite <- Hdupc. f_equal. destruct Hst as (Hnd & _).
        eapply same_id_same_record; eauto.
      * intros r Hr HA Hrc. destruct Hst as (_ & _ & Hcont).
        rewrite (Hcont r dup); auto; [|congruence].
        apply negb_false_iff, String.eqb_refl.
Qed.
End Invariant.

(** ** The claims about the zone *)

Section ZoneClaims.
(** C7.  When the zone's record of the hostname already holds the resolved
    address, reconciling issues the one lookup and no create, update or
    delete, leaves the world (the zone with it) as it was, and returns
    [no-change]. *)
Theorem unchanged_address_is_stable w device env existing others :
  faults w = [] ->
  a_named (dns_name device env) (zone w) = existing :: others ->
  rec_content existing = dev_ipv4 device ->
  exists t,
    run cloudflare (manageDNSRecord device env) w =
      (Ok (mkAction no_change (dns_name device env) (dev_ipv4 device) None),
       w, t) /\
    requests t = [ListByName (ZONE_ID env) (dns_name device env)] /\
    (forall q, In q (requests t) -> is_mutation q = false).
Proof.
  intros Hf Hex Hc. eexists. split; [|split].
  - apply (run_no_change w device env Hf existing others Hex Hc).
  - reflexivity.
  - intros q [<- | []]. reflexivity.
Qed.

(** C5.  From a zone with no record of the hostname, reconciling twice in
    a row gives [created] then [no-change]: the first run looks up and
    creates, the second only looks up and leaves the world as the first
    left it, and the hostname has one record. *)
Theorem reconcile_twice w device env :
  faults w = [] ->
  a_named (dns_name device env) (zone w) = [] ->
  let n := dns_name device env in
  let ip := dev_ipv4 device in
  exists w1 t1 t2,
    run cloudflare (manageDNSRecord device env) w =
      (Ok (mkAction created n ip None), w1, t1) /\
    run cloudflare (manageDNSRecord device env) w1 =
      (Ok (mkAction no_change n ip None), w1, t2) /\
    requests t1 = [ListByName (ZONE_ID env) n;
                   CreateRecord (ZONE_ID env) n ip] /\
    requests t2 = [ListByName (ZONE_ID env) n] /\
    List.length (a_named n (zone w1)) = 1.
Proof.
  intros Hf Hnone n ip.
  set (r := mkRecord (fresh_id (next_id w)) "A" n ip).
  set (w1 := mkWorld (zone w ++ [r]) (directory w) (S (next_id w))
               (faults w)).
  assert (Hone : a_named n (zone w1) = [r]).
  { unfold a_named. simpl zone. rewrite filter_app.
    fold (a_named n (zone w)). unfold n at 1. rewrite Hnone. simpl.
    now rewrite String.eqb_refl. }
  exists w1. eexists. eexists. split; [|split; [|split; [|split]]].
  - apply (run_create w device env Hf Hnone).
  - apply (run_no_change w1 device env Hf r [] Hone eq_refl).
  - reflexivity.
  - reflexivity.
  - now rewrite Hone.
Qed.

(** C3.  In a steady zone holding [a.example.com -> 10.0.0.1] and a
    record of [b.example.com] with another address, reconciling
    [(b, 10.0.0.1)] deletes the record of [a.example.com], then updates
    the record of [b.example.com] to [10.0.0.1], and returns [updated]
    with [deleted_duplicate = "a.example.com"]. *)
Theorem duplicate_is_resolved w env ida idb other :
  faults w = [] ->
  DOMAIN_SUFFIX env = "example.com" ->
  steady (zone w) ->
  In (mkRecord ida "A" "a.example.com" "10.0.0.1") (zone w) ->
  In (mkRecord idb "A" "b.example.com" other) (zone w) ->
  other <> "10.0.0.1" ->
  exists w' t,
    run cloudflare (manageDNSRecord (mkDevice "b" "10.0.0.1") env) w =
      (Ok (mkAction updated "b.example.com" "10.0.0.1"
                    (Some "a.example.com")), w', t) /\
    requests t =
      [ListByName (ZONE_ID env) "b.example.com";
       ListByContent (ZONE_ID env) "10.0.0.1";
       DeleteRecord (ZONE_ID env) ida;
       UpdateRecord (ZONE_ID env) idb "b.example.com" "10.0.0.1"] /\
    a_named "a.example.com" (zone w') = [] /\
    a_named "b.example.com" (zone w')
      = [mkRecord idb "A" "b.example.com" "10.0.0.1"] /\
    reconciled "b.example.com" "10.0.0.1" (zone w').
Proof.
  intros Hf Hsuf Hst Ha Hb Hother.
  set (ra := mkRecord ida "A" "a.example.com" "10.0.0.1") in *.
  set (rb := mkRecord idb "A" "b.example.com" other) in *.
  assert (Hn : dns_name (mkDevice "b" "10.0.0.1") env = "b.example.com").
  { unfold dns_name. simpl. now rewrite Hsuf. }
  destruct (run_update_after_delete w (mkDevice "b" "10.0.0.1") env Hf rb ra
              Hst Hb eq_refl (eq_sym Hn) Hother Ha eq_refl eq_refl)
    as (w' & t & Hrun & Ht & Hz & _).
  rewrite Hn in Hrun, Ht, Hz. simpl in Hrun, Ht, Hz.
  assert (Hids : idb <> ida).
  { intro E. apply Hother. destruct Hst as (Hnd & _).
    assert (rb = ra) by (eapply same_id_same_record; eauto).
    unfold rb, ra in *. congruence. }
  destruct (updated_zone_reconciled (zone w) rb "b.example.com" "10.0.0.1"
              (fun r => negb (rec_id r =? ida)) Hst Hb eq_refl eq_refl)
    as [Hone Hrec].
  { simpl. apply negb_true_iff. now apply String.eqb_neq. }
  { intros r Hr HA Hc. destruct Hst as (_ & _ & Hcont).
    rewrite (Hcont r ra); auto. simpl. now rewrite String.eqb_refl. }
  fold (delete_id ida (zone w)) in Hone, Hrec. simpl rec_id in Hone, Hrec.
  rewrite <- Hz in Hone, Hrec.
  exists w', t. repeat (split; [assumption|]). split; [|split; assumption].
  rewrite Hz. apply filter_none. intros r Hr.
  apply in_overwrite in Hr. destruct Hr as [[-> _] | [Hr _]]; [reflexivity|].
  apply in_delete in Hr. destruct Hr as [Hr Hid].
  destruct (is_A r) eqn:HA; [|reflexivity]. simpl.
  apply String.eqb_neq. intro Hname. apply Hid.
  destruct Hst as (_ & Hnames & _).
  now rewrite (Hnames r ra Hr Ha HA eq_refl Hname).
Qed.

(** C1, at the input where the code departs from it.  The zone is steady
    and holds [a.example.com -> 10.0.0.1]; there is no record of
    [b.example.com].  Reconciling [(b, 10.0.0.1)] creates the record of
    [b.example.com] and leaves the one of [a.example.com] bound to the
    same address: the zone is not reconciled for the device. *)
Theorem create_leaves_stale_record :
  steady (zone world_a) /\
  exists w' t,
    run cloudflare (manageDNSRecord device_b env0) world_a =
      (Ok (mkAction created "b.example.com" "10.0.0.1" None), w', t) /\
    zone w' = [rec_a; mkRecord "rec-2" "A" "b.example.com" "10.0.0.1"] /\
    a_bound "10.0.0.1" (zone w')
      = [rec_a; mkRecord "rec-2" "A" "b.example.com" "10.0.0.1"] /\
    ~ reconciled "b.example.com" "10.0.0.1" (zone w').
Proof.
  split.
  - split; [|split].
    + simpl. constructor; [intros []|constructor].
    + intros r1 r2 [<- | []] [<- | []]; reflexivity.
    + intros r1 r2 [<- | []] [<- | []]; reflexivity.
  - eexists. eexists. split; [vm_compute; reflexivity|].
    split; [reflexivity|]. split; [reflexivity|].
    intros [_ H]. specialize (H rec_a (or_introl eq_refl) eq_refl eq_refl).
    discriminate.
Qed.
End ZoneClaims.

(** ** The claims at the sample data *)

Lemma steady_ab : steady (zone world_ab).
Proof.
  split; [|split].
  - simpl. repeat constructor; simpl; intuition discriminate.
  - intros r1 r2 [<- | [<- | []]] [<- | [<- | []]] _ _ H;
      try reflexivity; discriminate H.
  - intros r1 r2 [<- | [<- | []]] [<- | [<- | []]] _ _ H;
      try reflexivity; discriminate H.
Qed.

Lemma duplicate_is_resolved_witness :
  exists w' t,
    run cloudflare (manageDNSRecord (mkDevice "b" "10.0.0.1") env0) world_ab =
      (Ok (mkAction updated "b.example.com" "10.0.0.1"
                    (Some "a.example.com")), w', t) /\
    requests t =
      [ListByName "zone-1" "b.example.com";
       ListByContent "zone-1" "10.0.0.1";
       DeleteRecord "zone-1" "rec-1";
       UpdateRecord "zone-1" "rec-2" "b.example.com" "10.0.0.1"] /\
    a_named "a.example.com" (zone w') = [] /\
    a_named "b.example.com" (zone w')
      = [mkRecord "rec-2" "A" "b.example.com" "10.0.0.1"] /\
    reconciled "b.example.com" "10.0.0.1" (zone w').
Proof.
  apply (duplicate_is_resolved world_ab env0 "rec-1" "rec-2" "10.0.0.2").
  - reflexivity.
  - reflexivity.
  - exact steady_ab.
  - simpl. left. reflexivity.
  - simpl. right. left. reflexivity.
  - discriminate.
Defined.

Lemma delete_precedes_update_witness :
  exists tail,
    requests (snd (run cloudflare (manageDNSRecord device_b env0) world_ab)) =
      [ListByName "zone-1" "b.example.com";
       ListByContent "zone-1" "10.0.0.1";
       DeleteRecord "zone-1" "rec-1"] ++ tail /\
    (tail = [] \/
     tail = [UpdateRecord "zone-1" "rec-2" "b.example.com" "10.0.0.1"]).
Proof.
  destruct (delete_precedes_update World cloudflare device_b env0 world_ab
              rec_b rec_a world_ab
              [(ListByName "zone-1" "b.example.com", answer (ResList [rec_b]))]
              world_ab
              [(ListByContent "zone-1" "10.0.0.1", answer (ResList [rec_a]))])
    as (tail & H1 & H2 & _).
  - reflexivity.
  - discriminate.
  - reflexivity.
  - exists tail. split; [exact H1 | exact H2].
Defined.

Lemma reconcile_twice_witness :
  exists w1 t1 t2,
    run cloudflare (manageDNSRecord device_b env0) world_a =
      (Ok (mkAction created "b.example.com" "10.0.0.1" None), w1, t1) /\
    run cloudflare (manageDNSRecord device_b env0) w1 =
      (Ok (mkAction no_change "b.example.com" "10.0.0.1" None), w1, t2) /\
    requests t1 = [ListByName "zone-1" "b.example.com";
                   CreateRecord "zone-1" "b.example.com" "10.0.0.1"] /\
    requests t2 = [ListByName "zone-1" "b.example.com"] /\
    List.length (a_named "b.example.com" (zone w1)) = 1.
Proof.
  apply (reconcile_twice world_a device_b env0); reflexivity.
Defined.

Lemma unchanged_address_is_stable_witness :
  exists t,
    run cloudflare (manageDNSRecord device_b env0) world_b1 =
      (Ok (mkAction no_change "b.example.com" "10.0.0.1" None), world_b1, t) /\
    requests t = [ListByName "zone-1" "b.example.com"] /\
    (forall q, In q (requests t) -> is_mutation q = false).
Proof.
  apply (unchanged_address_is_stable world_b1 device_b env0
           (mkRecord "rec-2" "A" "b.example.com" "10.0.0.1") []);
    reflexivity.
Defined.

Lemma failed_mutation_still_reported_witness :
  reports_failure (refusal 500) /\
  exists act,
    fst (fst (run cloudflare
                (manageDNSRecord (mkDevice "alpha" "10.0.0.1") env0)
                (world_batch [Healthy; Refuse]))) = Ok act /\
    (action act = created \/ action act = updated).
Proof.
  assert (Hfail : reports_failure (refusal 500)).
  { eexists. split; [reflexivity|]. left. simpl.
    apply Nat.leb_le. reflexivity. }
  split; [exact Hfail|].
  destruct (proj2 (failed_mutation_still_reported World cloudflare
                     (mkDevice "alpha" "10.0.0.1") env0)
              (world_batch [Healthy; Refuse])
              (Ok (mkAction created "alpha.example.com" "10.0.0.1" None))
              (world_batch [])
              [(ListByName "zone-1" "alpha.example.com", answer (ResList []));
               (CreateRecord "zone-1" "alpha.example.com" "10.0.0.1",
                refusal 500)])
    as (act & Hres & Hkind & _).
  - reflexivity.
  - eexists. eexists. split; [right; left; reflexivity|reflexivity].
  - intros q o [H | [H | []]] Hq.
    + injection H as <- _. discriminate Hq.
    + injection H as _ <-. exact Hfail.
  - exists act. split; [|exact Hkind].
    rewrite <- Hres. reflexivity.
Defined.

(** C2 as worded fails on the code.  With the lookup of the first device's
    record rejected, the reply is the 500 text and the second device is
    never reached; with that lookup answered by success: false, the first
    device gets its [created] action all the same.  In neither case is the
    first device passed over and the batch carried on. *)
Lemma store_failure_not_skipped :
  ~ skipped_and_continued
      (run cloudflare (worker_fetch request2 env0)
           (world_batch [Healthy; Reject]))
      "alpha.example.com" "beta.example.com" /\
  ~ skipped_and_continued
      (run cloudflare (worker_fetch request2 env0)
           (world_batch [Healthy; Refuse]))
      "alpha.example.com" "beta.example.com".
Proof.
  split.
  - intros (log & H & _). vm_compute in H. discriminate H.
  - intros (log & H & Hnone & _). vm_compute in H. injection H as <-.
    apply (Hnone (mkAction created "alpha.example.com" "10.0.0.1" None));
      [now left | reflexivity].
Qed.

(** ** More on one reconciliation, whatever the services answer *)

(** Settles what [call_error] is at a call whose reading is known. *)
Ltac call_error_known :=
  unfold call_error; cbn [fst snd is_mutation];
  repeat match goal with
  | E : read_first _ = _ |- _ => rewrite E
  | E : ack _ = _ |- _ => rewrite E
  end; reflexivity.

Section ReconcileMore.
Variable World : Type.
Variable handle : Request -> World -> FetchOutcome * World.

(** The action names the hostname and the address it was asked for. *)
Lemma manage_action_fields device env w res w' t a :
  run handle (manageDNSRecord device env) w = (res, w', t) ->
  res = Ok a ->
  act_name a = dns_name device env /\ act_ipv4 a = dev_ipv4 device.
Proof.
  intros H Hres. manage_cases H; try discriminate Hres;
    injection Hres as <-; split; reflexivity.
Qed.

(** X1.  The action is a true account of the calls made: [no-change] means the
    one lookup; [created] the lookup and one create; [updated] without a
    duplicate the two lookups and one update; [updated] with a duplicate
    the two lookups, one delete, then one update. *)
Theorem action_tells_calls device env w res w' t a :
  run handle (manageDNSRecord device env) w = (res, w', t) ->
  res = Ok a ->
  let z := ZONE_ID env in
  let n := dns_name device env in
  let ip := dev_ipv4 device in
  act_name a = n /\ act_ipv4 a = ip /\
  match action a, deleted_duplicate a with
  | no_change, d => d = None /\ requests t = [ListByName z n]
  | created, d =>
      d = None /\ requests t = [ListByName z n; CreateRecord z n ip]
  | updated, None =>
      exists i,
        requests t = [ListByName z n; ListByContent z ip;
                      UpdateRecord z i n ip]
  | updated, Some _ =>
      exists i j,
        requests t = [ListByName z n; ListByContent z ip;
                      DeleteRecord z j; UpdateRecord z i n ip]
  end.
Proof.
  intros H Hres. cbv zeta.
  manage_cases H; try discriminate Hres; injection Hres as <-;
    (split; [reflexivity|]); (split; [reflexivity|]); simpl;
    try (split; reflexivity); repeat eexists.
Qed.

(** X2.  A reconciliation starts with the by-name lookup built from the
    computed hostname, makes at most four calls of which at most two are
    mutations, and none of its calls goes to the device directory. *)
Theorem reconcile_call_budget device env w :
  let t := snd (run handle (manageDNSRecord device env) w) in
  (exists o rest,
     t = (ListByName (ZONE_ID env) (dns_name device env), o) :: rest) /\
  List.length t <= 4 /\
  List.length (filter is_mutation (requests t)) <= 2 /\
  Forall (fun q => is_dns_call q = true) (requests t).
Proof.
  cbv zeta.
  destruct (run handle (manageDNSRecord device env) w) as [[res w'] t] eqn:H.
  manage_cases H; simpl;
    (split; [eexists; eexists; reflexivity|]);
    (split; [lia|]); (split; [lia|]);
    repeat constructor.
Qed.

(** X3.  A reconciliation stops at the first call that throws: when it throws,
    the exception is that of the last call of the trace and no earlier call
    threw; when it returns an action, no call threw.  A mutation throws
    only when its fetch is rejected. *)
Theorem throw_is_last_call device env w res w' t :
  run handle (manageDNSRecord device env) w = (res, w', t) ->
  match res with
  | Exn e =>
      exists t' c,
        t = t' ++ [c] /\ call_error c = Some e /\
        Forall (fun c' => call_error c' = None) t' /\
        (is_mutation (fst c) = true ->
         snd c = FetchRejects /\ e = NetworkError)
  | Ok _ => Forall (fun c' => call_error c' = None) t
  end.
Proof.
  intro H.
  assert (Hmut : forall o e,
            ack o = Exn e -> o = FetchRejects /\ e = NetworkError).
  { intros o e Hack. destruct o; simpl in Hack; [|discriminate].
    injection Hack as <-. auto. }
  manage_cases H;
    first
      [ (* an action *)
        repeat constructor; call_error_known
      | (* a throw at the last call *)
        (refine (ex_intro _ [] _) + refine (ex_intro _ [_] _)
         + refine (ex_intro _ [_; _] _) + refine (ex_intro _ [_; _; _] _));
        eexists; split; [reflexivity|];
        split; [call_error_known|];
        split; [repeat constructor; call_error_known|];
        cbn [fst snd is_mutation]; intro Hq; try discriminate Hq;
        apply Hmut; assumption ].
Qed.
End ReconcileMore.

(** ** More on the map of unique devices *)

Section UniqueDevicesMore.
Lemma collect_null es : In JNull es -> forall m, collect es m = Throw TypeError.
Proof.
  induction es as [|e es IH]; intros Hin m; [contradiction|].
  destruct e as [|[i|] [n|]]; simpl; try reflexivity;
    destruct Hin as [Hin | Hin]; try discriminate Hin;
    try (now apply IH).
  destruct (negb (i =? "") && negb (n =? "")); now apply IH.
Qed.

Lemma collect_no_null es m0 m : collect es m0 = Ret m -> ~ In JNull es.
Proof.
  intros H Hin. rewrite (collect_null es Hin) in H. discriminate H.
Qed.

Lemma in_map_set i n k v m :
  In (i, n) (map_set k v m) -> (i, n) = (k, v) \/ In (i, n) m.
Proof.
  induction m as [|[k0 v0] m IH]; simpl.
  - intros [H | []]. left. now symmetry.
  - destruct (k0 =? k); simpl.
    + intros [H | H]; [left; now symmetry | right; now right].
    + intros [H | H]; [right; now left|].
      destruct (IH H) as [E | Hin]; [now left | right; now right].
Qed.

Lemma collect_sound es : forall m0 m i n,
  collect es m0 = Ret m -> In (i, n) m ->
  In (i, n) m0 \/
  (In (JObj (Some i) (Some n)) es /\ i <> "" /\ n <> "").
Proof.
  induction es as [|e es IH]; intros m0 m i n H Hin.
  - simpl in H. injection H as <-. now left.
  - destruct e as [|[k|] [v|]]; simpl in H; try discriminate H;
      try (destruct (IH _ _ _ _ H Hin) as [Hm | (He & Hi & Hn)];
           [now left | right; split; [now right | now split]]).
    destruct (negb (k =? "") && negb (v =? "")) eqn:Hkeep.
    + destruct (IH _ _ _ _ H Hin) as [Hm | (He & Hi & Hn)].
      * apply in_map_set in Hm. destruct Hm as [E | Hm]; [|now left].
        injection E as -> ->. right.
        apply andb_true_iff in Hkeep. destruct Hkeep as [Hk Hv].
        apply negb_true_iff in Hk, Hv. apply String.eqb_neq in Hk, Hv.
        split; [now left | now split].
      * right. split; [now right | now split].
    + destruct (IH _ _ _ _ H Hin) as [Hm | (He & Hi & Hn)];
        [now left | right; split; [now right | now split]].
Qed.

Lemma collect_missing es i : forall m0 m,
  collect es m0 = Ret m ->
  Forall (fun e => forall n, kept e <> Some (i, n)) es ->
  map_get i m = map_get i m0.
Proof.
  induction es as [|e es IH]; intros m0 m H Hnone.
  - simpl in H. now injection H as <-.
  - inversion Hnone as [|e' es' He Hes]; subst.
    destruct e as [|[k|] [v|]]; simpl in H; try discriminate H;
      try (now apply IH).
    simpl in He.
    destruct (negb (k =? "") && negb (v =? "")); [|now apply IH].
    rewrite (IH _ _ H Hes). apply map_get_set_other.
    intros ->. now apply (He v).
Qed.

(** X6.  The map holds nothing the batch did not say: every entry of it is a
    line of the batch with both members non-empty, and a device
    identifier that no kept line carries has no entry. *)
Theorem unique_devices_sound es m :
  uniqueDevices es = Ret m ->
  Forall (fun d => In (JObj (Some (fst d)) (Some (snd d))) es /\
                   fst d <> "" /\ snd d <> "") m /\
  forall i, Forall (fun e => forall n, kept e <> Some (i, n)) es ->
            map_get i m = None.
Proof.
  intro H. split.
  - apply Forall_forall. intros [i n] Hin.
    destruct (collect_sound es [] _ _ _ H Hin) as [[] | Hok]. exact Hok.
  - intros i Hnone. now rewrite (collect_missing es i [] m H Hnone).
Qed.
Lemma keys_map_set_grow k v m : exists more, keys (map_set k v m) = keys m ++ more.
Proof.
  induction m as [|[k0 v0] m IH]; simpl.
  - now exists [k].
  - destruct (k0 =? k) eqn:E; simpl.
    + apply String.eqb_eq in E. subst k0. exists []. now rewrite app_nil_r.
    + destruct IH as [more IH]. exists more. now rewrite IH.
Qed.

Lemma collect_keys_grow es : forall m0 m,
  collect es m0 = Ret m -> exists more, keys m = keys m0 ++ more.
Proof.
  induction es as [|e es IH]; intros m0 m H.
  - simpl in H. injection H as <-. exists []. now rewrite app_nil_r.
  - destruct e as [|[k|] [v|]]; simpl in H; try discriminate H;
      try (now apply IH).
    destruct (negb (k =? "") && negb (v =? "")); [|now apply IH].
    apply IH in H. destruct H as [more H].
    destruct (keys_map_set_grow k v m0) as [more0 E].
    exists (more0 ++ more). now rewrite H, E, app_assoc.
Qed.

(** X7.  Lines that come later never reorder the devices met before: the
    identifiers of the map built from a batch head the identifiers of the
    map built from the batch with more lines after it, so a device keeps
    the place of its first kept line even when a later line renames it. *)
Theorem later_lines_keep_order pre post m1 m2 :
  uniqueDevices pre = Ret m1 ->
  uniqueDevices (pre ++ post) = Ret m2 ->
  exists more, keys m2 = keys m1 ++ more.
Proof.
  unfold uniqueDevices. intros H1 H2.
  rewrite collect_app, H1 in H2. simpl in H2.
  now apply collect_keys_grow in H2.
Qed.

Lemma collect_nothing_kept es : forall m,
  Forall (fun e => e <> JNull /\ kept e = None) es -> collect es m = Ret m.
Proof.
  induction es as [|e es IH]; intros m H; [reflexivity|].
  inversion H as [|e' es' [Hnull Hkept] Hes]; subst.
  destruct e as [|[k|] [v|]]; simpl; try (now apply IH);
    [now contradiction Hnull|].
  simpl in Hkept.
  destruct (negb (k =? "") && negb (v =? "")); [discriminate|now apply IH].
Qed.
End UniqueDevicesMore.

(** ** More on the batch, whatever the services answer *)

Section BatchMore.
Variable World : Type.
Variable handle : Request -> World -> FetchOutcome * World.

(** X4.  A batch that cannot be decoded, or one of whose lines is JSON null, is
    answered 500 before any call is made: the map is built in full before
    the first lookup, so nothing is reconciled and the world is as it was. *)
Theorem bad_batch_makes_no_call request env w :
  method request = "POST" ->
  (decoded request = None \/
   exists es, decoded request = Some es /\ In JNull es) ->
  run handle (worker_fetch request env) w =
  (Ok (mkReply 500 (TextBody "Error processing data")), w, []).
Proof.
  intros Hm Hbad. unfold worker_fetch, process_batch. rewrite Hm.
  destruct Hbad as [-> | (es & -> & Hnull)]; [reflexivity|].
  unfold uniqueDevices. now rewrite (collect_null es Hnull).
Qed.

(** X5.  A batch whose lines all parse to something other than null, none
    of them with both a non-empty [DeviceID] and a non-empty [DeviceName],
    is answered 200 with the empty list, and no call is made.  (A body
    with no line at all does not come here: it fails to parse.) *)
Theorem nothing_kept_replies_empty request env es w :
  method request = "POST" ->
  decoded request = Some es ->
  es <> [] ->
  Forall (fun e => e <> JNull /\ kept e = None) es ->
  run handle (worker_fetch request env) w =
  (Ok (mkReply 200 (JsonActions [])), w, []).
Proof.
  intros Hm Hd _ Hnone. unfold worker_fetch, process_batch. rewrite Hm, Hd.
  unfold uniqueDevices. now rewrite (collect_nothing_kept es [] Hnone).
Qed.

Lemma manage_no_directory_call device env w :
  directory_calls
    (requests (snd (run handle (manageDNSRecord device env) w))) = [].
Proof.
  destruct (run handle (manageDNSRecord device env) w) as [[res w'] t] eqn:H.
  manage_cases H; reflexivity.
Qed.

Lemma directory_calls_app t1 t2 :
  directory_calls (requests (t1 ++ t2))
    = directory_calls (requests t1) ++ directory_calls (requests t2).
Proof.
  unfold directory_calls. rewrite <- filter_app. f_equal. apply map_app.
Qed.

Lemma directory_calls_step account deviceId o t :
  directory_calls (requests ((GetDevice account deviceId, o) :: t))
    = GetDevice account deviceId :: directory_calls (requests t).
Proof. reflexivity. Qed.

(** X8.  The directory is asked once per device of the map, in the order of the
    map: all of them when the loop runs to its end, and those up to the
    device at which a reconciliation threw otherwise. *)
Theorem directory_called_once_each devices : forall actions env w res w' t,
  run handle (processDevices devices actions env) w = (res, w', t) ->
  exists done rest,
    devices = done ++ rest /\
    directory_calls (requests t)
      = map (GetDevice (ACCOUNT_ID env)) (keys done) /\
    match res with
    | Ok _ => rest = []
    | Exn _ => done <> []
    end.
Proof.
  induction devices as [|[deviceId deviceName] devices IH];
    intros actions env w res w' t H.
  - simpl in H. injection H as <- _ <-. exists [], []. now repeat split.
  - rewrite run_processDevices_cons in H. cbv zeta in H.
    destruct (details_ipv4 _) as [ip|].
    + pose proof (manage_no_directory_call (mkDevice deviceName ip) env
                    (snd (handle (GetDevice (ACCOUNT_ID env) deviceId) w)))
        as Hnone.
      destruct (run handle (manageDNSRecord _ env) _)
        as [[[act | e] w2] t2].
      * destruct (run handle (processDevices devices _ env) w2)
          as [[res3 w3] t3] eqn:E.
        injection H as <- _ <-.
        destruct (IH _ _ _ _ _ _ E) as (done & rest & -> & Hcalls & Hres).
        exists ((deviceId, deviceName) :: done), rest.
        split; [reflexivity|]. split; [|destruct res3; [assumption|discriminate]].
        cbn [snd] in Hnone.
        rewrite directory_calls_step, directory_calls_app, Hnone, Hcalls.
        reflexivity.
      * injection H as <- _ <-.
        exists [(deviceId, deviceName)], devices.
        split; [reflexivity|]. split; [|discriminate].
        cbn [snd] in Hnone.
        rewrite directory_calls_step, Hnone. reflexivity.
    + destruct (run handle (processDevices devices _ env) _)
        as [[res3 w3] t3] eqn:E.
      injection H as <- _ <-.
      destruct (IH _ _ _ _ _ _ E) as (done & rest & -> & Hcalls & Hres).
      exists ((deviceId, deviceName) :: done), rest.
      split; [reflexivity|]. split; [|destruct res3; [assumption|discriminate]].
      rewrite directory_calls_step, Hcalls. reflexivity.
Qed.

Lemma subseq_length A (l1 l2 : list A) :
  subseq l1 l2 -> List.length l1 <= List.length l2.
Proof. induction 1; simpl; lia. Qed.

Lemma processDevices_log devices : forall actions env w log w' t,
  run handle (processDevices devices actions env) w = (Ok log, w', t) ->
  exists new,
    log = actions ++ new /\
    subseq (map act_name new) (map (hostname_of env) devices).
Proof.
  induction devices as [|[deviceId deviceName] devices IH];
    intros actions env w log w' t H.
  - simpl in H. injection H as <- _ _. exists [].
    split; [now rewrite app_nil_r | constructor].
  - rewrite run_processDevices_cons in H. cbv zeta in H.
    destruct (details_ipv4 _) as [ip|].
    + destruct (run handle (manageDNSRecord _ env) _)
        as [[[act | e] w2] t2] eqn:Hm; [|discriminate].
      destruct (run handle (processDevices devices _ env) w2)
        as [[res3 w3] t3] eqn:E.
      injection H as -> _ _.
      destruct (IH _ _ _ _ _ _ E) as (new & -> & Hsub).
      destruct (manage_action_fields _ _ _ _ _ _ _ _ _ Hm eq_refl)
        as [Hname _].
      exists (act :: new). split; [now rewrite <- app_assoc|].
      simpl. rewrite Hname. now constructor.
    + destruct (run handle (processDevices devices _ env) _)
        as [[res3 w3] t3] eqn:E.
      injection H as -> _ _.
      destruct (IH _ _ _ _ _ _ E) as (new & -> & Hsub).
      exists new. split; [reflexivity|]. now constructor.
Qed.

Lemma directory_answers_app t1 t2 :
  directory_answers (t1 ++ t2) = directory_answers t1 ++ directory_answers t2.
Proof.
  induction t1 as [|[q o] t1 IH]; [reflexivity|].
  destruct q; simpl; now rewrite IH.
Qed.

Lemma manage_no_directory_answer device env w :
  directory_answers (snd (run handle (manageDNSRecord device env) w)) = [].
Proof.
  destruct (run handle (manageDNSRecord device env) w) as [[res w'] t] eqn:H.
  manage_cases H; reflexivity.
Qed.

Lemma processDevices_log_exact devices : forall actions env w log w' t,
  run handle (processDevices devices actions env) w = (Ok log, w', t) ->
  exists new,
    log = actions ++ new /\
    map (fun a => (act_name a, act_ipv4 a)) new
      = expected_log env devices (directory_answers t) /\
    List.length (directory_answers t) = List.length devices.
Proof.
  induction devices as [|[deviceId deviceName] devices IH];
    intros actions env w log w' t H.
  - simpl in H. injection H as <- _ <-. exists [].
    split; [now rewrite app_nil_r | split; reflexivity].
  - rewrite run_processDevices_cons in H. cbv zeta in H.
    rewrite address_in_details in H.
    destruct (address_in _) as [ip|] eqn:Ha.
    + pose proof (manage_no_directory_answer (mkDevice deviceName ip) env
                    (snd (handle (GetDevice (ACCOUNT_ID env) deviceId) w)))
        as Hnone.
      destruct (run handle (manageDNSRecord _ env) _)
        as [[[act | e] w2] t2] eqn:Hm; [|discriminate].
      destruct (run handle (processDevices devices _ env) w2)
        as [[res3 w3] t3] eqn:E.
      injection H as -> _ <-.
      destruct (IH _ _ _ _ _ _ E) as (new & -> & Hlog & Hlen).
      destruct (manage_action_fields _ _ _ _ _ _ _ _ _ Hm eq_refl)
        as [Hname Hipv4].
      cbn [snd] in Hnone. exists (act :: new).
      split; [now rewrite <- app_assoc|].
      cbn [directory_answers expected_log map List.length].
      rewrite directory_answers_app, Hnone, Ha. cbn [app].
      rewrite Hname, Hipv4, Hlog, Hlen. split; reflexivity.
    + destruct (run handle (processDevices devices _ env) _)
        as [[res3 w3] t3] eqn:E.
      injection H as -> _ <-.
      destruct (IH _ _ _ _ _ _ E) as (new & -> & Hlog & Hlen).
      exists new. split; [reflexivity|].
      cbn [directory_answers expected_log map List.length].
      rewrite Ha, Hlog, Hlen. split; reflexivity.
Qed.

(** X9.  The list a completed batch returns is the list of the resolved
    devices: the directory was asked once per device of the map, and the
    list holds, in the order of the map, exactly one action for each device
    whose directory answer carried an address, with the device's hostname
    and that address; the devices with no address are the ones left out.
    So its hostnames follow those of the map and there is at most one
    action per device. *)
Theorem log_follows_devices request env es devices w log w' t :
  decoded request = Some es ->
  uniqueDevices es = Ret devices ->
  run handle (process_batch request env) w = (Ok log, w', t) ->
  List.length (directory_answers t) = List.length devices /\
  map (fun a => (act_name a, act_ipv4 a)) log
    = expected_log env devices (directory_answers t) /\
  subseq (map act_name log) (map (hostname_of env) devices) /\
  List.length log <= List.length devices.
Proof.
  intros Hd Hu H.
  rewrite (run_process_batch _ handle request env es devices w Hd Hu) in H.
  destruct (processDevices_log_exact _ _ _ _ _ _ _ H) as (new & E & Hlog & Hlen).
  destruct (processDevices_log _ _ _ _ _ _ _ H) as (new' & E' & Hsub).
  simpl in E, E'. subst new new'.
  split; [exact Hlen|]. split; [exact Hlog|]. split; [exact Hsub|].
  apply subseq_length in Hsub. now rewrite !length_map in Hsub.
Qed.

Lemma manage_trace_length device env w :
  List.length (snd (run handle (manageDNSRecord device env) w)) <= 4.
Proof.
  destruct (run handle (manageDNSRecord device env) w) as [[res w'] t] eqn:H.
  manage_cases H; simpl; lia.
Qed.

(** X17.  A batch costs at most five calls per device of the map: one to
    the directory and at most four to the DNS store. *)
Theorem batch_call_budget devices : forall actions env w,
  List.length (snd (run handle (processDevices devices actions env) w))
    <= 5 * List.length devices.
Proof.
  induction devices as [|[deviceId deviceName] devices IH];
    intros actions env w; [simpl; lia|].
  rewrite run_processDevices_cons. cbv zeta.
  destruct (details_ipv4 _) as [ip|].
  - pose proof (manage_trace_length (mkDevice deviceName ip) env
                  (snd (handle (GetDevice (ACCOUNT_ID env) deviceId) w)))
      as Hfour.
    destruct (run handle (manageDNSRecord _ env) _) as [[[act | e] w2] t2];
      cbn [snd] in Hfour.
    + specialize (IH (actions ++ [act]) env w2).
      destruct (run handle (processDevices devices _ env) w2)
        as [[res3 w3] t3].
      cbn [snd List.length] in *. rewrite length_app. lia.
    + cbn [snd List.length]. lia.
  - specialize (IH actions env
                  (snd (handle (GetDevice (ACCOUNT_ID env) deviceId) w))).
    destruct (run handle (processDevices devices _ env) _)
      as [[res3 w3] t3].
    cbn [snd List.length] in *. lia.
Qed.

Lemma requests_app t1 t2 : requests (t1 ++ t2) = requests t1 ++ requests t2.
Proof. apply map_app. Qed.

(** X10.  With the directory failing (rejected fetch, body that is no JSON,
    success flag off) or giving no address (no result, no metadata, no
    [ipv4], empty [ipv4]) for every device, the loop asks the directory once
    per device, calls the DNS store for none and returns the list of
    actions it started from. *)
Theorem directory_outage_touches_no_record env :
  (forall deviceId w,
     let o := fst (handle (GetDevice (ACCOUNT_ID env) deviceId) w) in
     lookup_fails o \/ no_address o) ->
  forall devices actions w,
    exists w' t,
      run handle (processDevices devices actions env) w = (Ok actions, w', t) /\
      requests t = map (GetDevice (ACCOUNT_ID env)) (keys devices).
Proof.
  intros Hdown devices.
  induction devices as [|[deviceId deviceName] devices IH]; intros actions w.
  - exists w, []. split; reflexivity.
  - rewrite run_processDevices_cons. cbv zeta.
    pose proof (Hdown deviceId w) as Habs. cbv zeta in Habs.
    apply unresolved_no_address in Habs.
    rewrite address_in_details, Habs.
    destruct (IH actions
                (snd (handle (GetDevice (ACCOUNT_ID env) deviceId) w)))
      as (w' & t & Hrun & Ht).
    rewrite Hrun. eexists. eexists. split; [reflexivity|].
    unfold requests in *. simpl. now rewrite Ht.
Qed.
End BatchMore.

(** ** The reply and the work list, whatever the services answer *)

Section Replies.
Variable World : Type.
Variable handle : Request -> World -> FetchOutcome * World.

(** When the loop throws, it is the reconciliation of one device that
    threw, after the devices before it were processed. *)
Lemma processDevices_throw_origin devices : forall actions0 env w e w' t,
  run handle (processDevices devices actions0 env) w = (Exn e, w', t) ->
  exists pre deviceId deviceName rest actions w0 t0 ip t2,
    devices = pre ++ (deviceId, deviceName) :: rest /\
    run handle (processDevices pre actions0 env) w = (Ok actions, w0, t0) /\
    address_in (fst (handle (GetDevice (ACCOUNT_ID env) deviceId) w0))
      = Some ip /\
    run handle (manageDNSRecord (mkDevice deviceName ip) env)
        (snd (handle (GetDevice (ACCOUNT_ID env) deviceId) w0))
      = (Exn e, w', t2) /\
    t = t0 ++ (GetDevice (ACCOUNT_ID env) deviceId,
               fst (handle (GetDevice (ACCOUNT_ID env) deviceId) w0)) :: t2.
Proof.
  induction devices as [|[deviceId deviceName] devices IH];
    intros actions0 env w e w' t H; [discriminate H|].
  rewrite run_processDevices_cons in H. cbv zeta in H.
  rewrite address_in_details in H.
  destruct (address_in _) as [ip|] eqn:Ha.
  - destruct (run handle (manageDNSRecord _ env) _)
      as [[[act | e0] w2] t2] eqn:Hm.
    + destruct (run handle (processDevices devices _ env) w2)
        as [[res3 w3] t3] eqn:E.
      injection H as -> -> <-.
      destruct (IH _ _ _ _ _ _ E)
        as (pre & id' & name' & rest & acts & w0 & t0 & ip' & t2'
            & -> & Hpre & Ha' & Hm' & ->).
      exists ((deviceId, deviceName) :: pre), id', name', rest, acts, w0.
      eexists. exists ip', t2'. split; [reflexivity|].
      split; [|split; [exact Ha'|split; [exact Hm'|]]].
      * cbn [app]. rewrite run_processDevices_cons. cbv zeta.
        rewrite address_in_details, Ha, Hm, Hpre. reflexivity.
      * cbn [app]. now rewrite <- app_assoc.
    + injection H as -> -> <-.
      exists [], deviceId, deviceName, devices, actions0, w, [], ip, t2.
      repeat split; auto.
  - destruct (run handle (processDevices devices _ env) _)
      as [[res3 w3] t3] eqn:E.
    injection H as -> -> <-.
    destruct (IH _ _ _ _ _ _ E)
      as (pre & id' & name' & rest & acts & w0 & t0 & ip' & t2'
          & -> & Hpre & Ha' & Hm' & ->).
    exists ((deviceId, deviceName) :: pre), id', name', rest, acts, w0.
    eexists. exists ip', t2'. split; [reflexivity|].
    split; [|split; [exact Ha'|split; [exact Hm'|]]].
    + cbn [app]. rewrite run_processDevices_cons. cbv zeta.
      rewrite address_in_details, Ha, Hpre. reflexivity.
    + reflexivity.
Qed.

(** C9.  The reply of the worker, case by case.  Any method but POST: 405,
    no call made.  A POST whose body cannot be decoded or parsed, or one
    of whose lines is null: 500 with the plain text, no call made.  A POST
    whose lines parse: the map of devices is built and the loop run over
    it; when the loop returns its list of actions the reply is 200 with
    that list, and when it throws the reply is 500 with the plain text,
    the throw being that of the reconciliation of one device whose address
    the directory gave, after the devices before it were processed. *)
Theorem worker_reply request env w :
  (method request <> "POST" ->
   run handle (worker_fetch request env) w =
   (Ok (mkReply 405 (TextBody "Only POST requests are allowed")), w, [])) /\
  (method request = "POST" ->
   (decoded request = None \/
    (exists es, decoded request = Some es /\ In JNull es) ->
    run handle (worker_fetch request env) w =
    (Ok (mkReply 500 (TextBody "Error processing data")), w, [])) /\
   (forall es,
      decoded request = Some es -> ~ In JNull es ->
      exists devices,
        uniqueDevices es = Ret devices /\
        (forall log w' t,
           run handle (processDevices devices [] env) w = (Ok log, w', t) ->
           run handle (worker_fetch request env) w =
           (Ok (mkReply 200 (JsonActions log)), w', t)) /\
        (forall e w' t,
           run handle (processDevices devices [] env) w = (Exn e, w', t) ->
           run handle (worker_fetch request env) w =
             (Ok (mkReply 500 (TextBody "Error processing data")), w', t) /\
           exists pre deviceId deviceName rest actions w0 t0 ip t2,
             devices = pre ++ (deviceId, deviceName) :: rest /\
             run handle (processDevices pre [] env) w = (Ok actions, w0, t0) /\
             address_in
               (fst (handle (GetDevice (ACCOUNT_ID env) deviceId) w0))
               = Some ip /\
             run handle (manageDNSRecord (mkDevice deviceName ip) env)
                 (snd (handle (GetDevice (ACCOUNT_ID env) deviceId) w0))
               = (Exn e, w', t2) /\
             t = t0 ++
                 (GetDevice (ACCOUNT_ID env) deviceId,
                  fst (handle (GetDevice (ACCOUNT_ID env) deviceId) w0))
                 :: t2))).
Proof.
  split.
  - intro Hm. unfold worker_fetch. apply String.eqb_neq in Hm.
    now rewrite Hm.
  - intro Hm. split.
    + intro Hbad. rewrite run_worker_fetch, Hm. unfold process_batch.
      destruct Hbad as [-> | (es & -> & Hnull)]; [reflexivity|].
      unfold uniqueDevices. now rewrite (collect_null es Hnull).
    + intros es Hd Hnull.
      destruct (collect_total es [] Hnull) as (devices & E & _).
      exists devices. split; [exact E|].
      assert (Hrun : run handle (worker_fetch request env) w =
                     (let '(res, w', t) :=
                        run handle (processDevices devices [] env) w in
                      (Ok (reply_of res), w', t))).
      { rewrite run_worker_fetch, Hm.
        now rewrite (run_process_batch _ handle request env es devices w Hd E). }
      split.
      * intros log w' t H. now rewrite Hrun, H.
      * intros e w' t H. split; [now rewrite Hrun, H|].
        now apply processDevices_throw_origin.
Qed.

Lemma map_get_some_in i n m : map_get i m = Some n -> In (i, n) m.
Proof.
  induction m as [|[k v] m IH]; simpl; [discriminate|].
  destruct (k =? i) eqn:E.
  - apply String.eqb_eq in E. subst k. intro H. injection H as ->. now left.
  - intro H. right. now apply IH.
Qed.

Lemma manage_starts_with_lookup device env w :
  exists o t',
    snd (run handle (manageDNSRecord device env) w)
      = (ListByName (ZONE_ID env) (dns_name device env), o) :: t'.
Proof.
  destruct (run handle (manageDNSRecord device env) w) as [[res w'] t] eqn:H.
  manage_cases H; eexists; eexists; reflexivity.
Qed.

(** C6.  In a batch where the entry [(i, n)] is the last one kept for the
    device identifier [i], building the map raises nothing; the work list
    has one entry per identifier, that of [i] being [(i, n)]; the batch is
    the loop over that list; and when the loop comes to [i] and the
    directory gives an address, the reconciliation run is that of the name
    [n] with that address: it starts with the lookup of [n.suffix], its
    action is appended and the loop goes on with the devices after [i].
    No earlier name of [i] is in the list. *)
Theorem last_name_is_reconciled request env pre post i n w :
  decoded request = Some (pre ++ JObj (Some i) (Some n) :: post) ->
  ~ In JNull (pre ++ post) ->
  i <> "" -> n <> "" ->
  (forall n', In (JObj (Some i) (Some n')) post -> n' = "") ->
  exists before after,
    uniqueDevices (pre ++ JObj (Some i) (Some n) :: post)
      = Ret (before ++ (i, n) :: after) /\
    NoDup (keys (before ++ (i, n) :: after)) /\
    (forall n', In (i, n') (before ++ (i, n) :: after) -> n' = n) /\
    run handle (process_batch request env) w
      = run handle (processDevices (before ++ (i, n) :: after) [] env) w /\
    forall actions w0 ip,
      let q := GetDevice (ACCOUNT_ID env) i in
      let device := mkDevice n ip in
      address_in (fst (handle q w0)) = Some ip ->
      (exists o t',
         snd (run handle (manageDNSRecord device env) (snd (handle q w0)))
           = (ListByName (ZONE_ID env) (n ++ "." ++ DOMAIN_SUFFIX env)%string,
              o) :: t') /\
      run handle (processDevices ((i, n) :: after) actions env) w0 =
        match run handle (manageDNSRecord device env) (snd (handle q w0)) with
        | (Ok act, w2, t2) =>
            let '(res, w3, t3) :=
              run handle (processDevices after (actions ++ [act]) env) w2 in
            (res, w3, (q, fst (handle q w0)) :: t2 ++ t3)
        | (Exn e, w2, t2) => (Exn e, w2, (q, fst (handle q w0)) :: t2)
        end.
Proof.
  intros Hd Hnull Hi Hn Hlast.
  destruct (last_name_wins pre post i n Hnull Hi Hn Hlast)
    as (m & Hm & Hnd & Hget & Honly).
  destruct (in_split _ _ (map_get_some_in _ _ _ Hget))
    as (before & after & ->).
  exists before, after. split; [exact Hm|]. split; [exact Hnd|].
  split; [exact Honly|]. split.
  - apply (run_process_batch _ handle request env _ _ w Hd Hm).
  - intros actions w0 ip q device Ha. split.
    + apply (manage_starts_with_lookup device env).
    + rewrite run_processDevices_cons. cbv zeta. fold q.
      rewrite address_in_details, Ha. reflexivity.
Qed.
End Replies.

(** ** More on reconciling against the reference zone *)

Section ZoneMore.
Lemma nodup_ids_filter (keep : DNSRecord -> bool) z :
  NoDup (map rec_id z) -> NoDup (map rec_id (filter keep z)).
Proof.
  induction z as [|a z IH]; simpl; intro H; [constructor|].
  inversion H as [|x l Hnotin Hnd]; subst.
  destruct (keep a); simpl; [|now apply IH].
  constructor; [|now apply IH].
  intro Hin. apply Hnotin. apply in_map_iff in Hin.
  destruct Hin as (r & E & Hr). apply filter_In in Hr.
  rewrite <- E. apply in_map. tauto.
Qed.

Lemma in_overwrite_other i n c z r :
  In r z -> rec_id r <> i -> In r (overwrite_id i n c z).
Proof.
  intros Hin Hid. unfold overwrite_id. apply in_map_iff. exists r.
  split; [|assumption]. apply String.eqb_neq in Hid. now rewrite Hid.
Qed.

(** The update, with or without a delete before it, keeps a steady zone
    steady. *)
Lemma updated_zone_steady z existing n ip (keep : DNSRecord -> bool) :
  steady z ->
  In existing z -> is_A existing = true -> rec_name existing = n ->
  keep existing = true ->
  (forall r, In r z -> is_A r = true -> rec_content r = ip ->
     keep r = false) ->
  steady (overwrite_id (rec_id existing) n ip (filter keep z)).
Proof.
  intros (Hnd & Hname & Hcont) Hex HexA Hexn Hkeep Hgone.
  split; [|split].
  - rewrite ids_overwrite. now apply nodup_ids_filter.
  - intros r1 r2 H1 H2 HA1 HA2 E.
    apply in_overwrite in H1. apply in_overwrite in H2.
    destruct H1 as [[-> _] | [H1 Hid1]], H2 as [[-> _] | [H2 Hid2]].
    + reflexivity.
    + exfalso. apply Hid2. apply filter_In in H2.
      rewrite (Hname r2 existing); try tauto. simpl in E. congruence.
    + exfalso. apply Hid1. apply filter_In in H1.
      rewrite (Hname r1 existing); try tauto. simpl in E. congruence.
    + apply filter_In in H1, H2. apply Hname; tauto.
  - intros r1 r2 H1 H2 HA1 HA2 E.
    apply in_overwrite in H1. apply in_overwrite in H2.
    destruct H1 as [[-> _] | [H1 Hid1]], H2 as [[-> _] | [H2 Hid2]].
    + reflexivity.
    + exfalso. apply filter_In in H2. destruct H2 as [H2 Hk].
      rewrite (Hgone r2 H2 HA2) in Hk; [discriminate|]. now simpl in E.
    + exfalso. apply filter_In in H1. destruct H1 as [H1 Hk].
      rewrite (Hgone r1 H1 HA1) in Hk; [discriminate|]. now simpl in E.
    + apply filter_In in H1, H2. apply Hcont; tauto.
Qed.

(** What reconciling does to a steady zone that has a record of the
    hostname: nothing, or the update of that record in the zone from which
    the records bound to the address, if any, are gone. *)
Lemma existing_hostname_outcome w device env ex others :
  faults w = [] ->
  steady (zone w) ->
  a_named (dns_name device env) (zone w) = ex :: others ->
  exists act w' t,
    run cloudflare (manageDNSRecord device env) w = (Ok act, w', t) /\
    faults w' = [] /\
    ((rec_content ex = dev_ipv4 device /\ w' = w) \/
     (rec_content ex <> dev_ipv4 device /\
      exists keep,
        keep ex = true /\
        (forall r, In r (zone w) -> is_A r = true ->
           rec_content r = dev_ipv4 device -> keep r = false) /\
        zone w' =
          overwrite_id (rec_id ex) (dns_name device env) (dev_ipv4 device)
            (filter keep (zone w)))).
Proof.
  intros Hf Hst E.
  destruct (a_named_first _ _ _ _ E) as (Hex & HexA & Hexn).
  destruct (string_dec (rec_content ex) (dev_ipv4 device)) as [Hc | Hc].
  - eexists. exists w. eexists.
    split; [now apply (run_no_change w device env Hf ex others E)|].
    split; [exact Hf|]. left. now split.
  - destruct (a_bound (dev_ipv4 device) (zone w)) as [|dup l] eqn:E2.
    + destruct (run_update_alone w device env Hf ex Hst Hex HexA Hexn Hc E2)
        as (w' & t & Hrun & _ & Hz & Hf').
      eexists. exists w', t. split; [exact Hrun|]. split; [exact Hf'|].
      right. split; [exact Hc|]. exists (fun _ => true).
      split; [reflexivity|]. split; [|now rewrite filter_keep_all].
      intros r Hr HA Hrc. exfalso.
      assert (Hin : In r (a_bound (dev_ipv4 device) (zone w))).
      { apply filter_In. split; [assumption|]. rewrite HA. simpl.
        now apply String.eqb_eq. }
      now rewrite E2 in Hin.
    + destruct (a_bound_first _ _ _ _ E2) as (Hdup & HdupA & Hdupc).
      destruct (run_update_after_delete w device env Hf ex dup Hst Hex HexA
                  Hexn Hc Hdup HdupA Hdupc)
        as (w' & t & Hrun & _ & Hz & Hf').
      eexists. exists w', t. split; [exact Hrun|]. split; [exact Hf'|].
      right. split; [exact Hc|].
      exists (fun r => negb (rec_id r =? rec_id dup)).
      split; [|split; [|exact Hz]].
      * apply negb_true_iff, String.eqb_neq. intro Eid. apply Hc.
        rewrite <- Hdupc. f_equal. destruct Hst as (Hnd & _).
        eapply same_id_same_record; eauto.
      * intros r Hr HA Hrc. destruct Hst as (_ & _ & Hcont).
        rewrite (Hcont r dup); auto; [|congruence].
        apply negb_false_iff, String.eqb_refl.
Qed.

(** X12.  Reconciling a device whose hostname has a record keeps a steady zone
    steady: identifiers stay distinct, and no hostname and no address gets
    a second A record. *)
Theorem existing_hostname_keeps_steady w device env :
  faults w = [] ->
  steady (zone w) ->
  a_named (dns_name device env) (zone w) <> [] ->
  steady (zone (snd (fst (run cloudflare (manageDNSRecord device env) w)))).
Proof.
  intros Hf Hst Hsome.
  destruct (a_named (dns_name device env) (zone w)) as [|ex others] eqn:E;
    [congruence|].
  destruct (a_named_first _ _ _ _ E) as (Hex & HexA & Hexn).
  destruct (existing_hostname_outcome w device env ex others Hf Hst E)
    as (act & w' & t & Hrun & _ & [[_ ->] | (_ & keep & Hk & Hgone & Hz)]);
    rewrite Hrun; simpl; [exact Hst|].
  rewrite Hz. now apply updated_zone_steady.
Qed.

(** X13.  Reconciling the same device again, with nothing changed in between, is
    a no-op when its hostname had a record: whatever the first run did
    (nothing, an update, a delete and an update), the second makes the one
    lookup, changes nothing and returns [no-change]. *)
Theorem reconcile_again_no_change w device env :
  faults w = [] ->
  steady (zone w) ->
  a_named (dns_name device env) (zone w) <> [] ->
  exists act w1 t1 t2,
    run cloudflare (manageDNSRecord device env) w = (Ok act, w1, t1) /\
    run cloudflare (manageDNSRecord device env) w1 =
      (Ok (mkAction no_change (dns_name device env) (dev_ipv4 device) None),
       w1, t2) /\
    requests t2 = [ListByName (ZONE_ID env) (dns_name device env)].
Proof.
  intros Hf Hst Hsome.
  destruct (a_named (dns_name device env) (zone w)) as [|ex others] eqn:E;
    [congruence|].
  destruct (a_named_first _ _ _ _ E) as (Hex & HexA & Hexn).
  destruct (existing_hostname_outcome w device env ex others Hf Hst E)
    as (act & w' & t & Hrun & Hf'
        & [[Hc ->] | (_ & keep & Hk & Hgone & Hz)]).
  - exists act, w, t. eexists. split; [exact Hrun|].
    split; [apply (run_no_change w device env Hf ex others E Hc)|reflexivity].
  - destruct (updated_zone_reconciled (zone w) ex (dns_name device env)
                (dev_ipv4 device) keep Hst Hex HexA Hexn Hk Hgone)
      as [Hone _].
    rewrite <- Hz in Hone.
    exists act, w', t. eexists. split; [exact Hrun|].
    split; [apply (run_no_change w' device env Hf' _ [] Hone eq_refl)
           |reflexivity].
Qed.
End ZoneMore.

Lemma cloudflare_served q w fs :
  faults w = Healthy :: fs ->
  cloudflare q w = serve q (mkWorld (zone w) (directory w) (next_id w) fs).
Proof. intro H. unfold cloudflare. now rewrite H. Qed.

Lemma cloudflare_rejected q w fs :
  faults w = Reject :: fs ->
  cloudflare q w =
  (FetchRejects, mkWorld (zone w) (directory w) (next_id w) fs).
Proof. intro H. unfold cloudflare. now rewrite H. Qed.

(** Takes the next call of the goal against a world whose schedule of
    faults is known. *)
Ltac next_call :=
  match goal with
  | |- context [cloudflare ?q (mkWorld ?z ?d ?n (Healthy :: ?fs))] =>
      rewrite (cloudflare_served q (mkWorld z d n (Healthy :: fs)) fs eq_refl)
  | |- context [cloudflare ?q (mkWorld ?z ?d ?n (Reject :: ?fs))] =>
      rewrite (cloudflare_rejected q (mkWorld z d n (Reject :: fs)) fs eq_refl)
  end.

Section ZoneFrame.
(** X14.  Reconciling a device leaves the rest of the zone alone.  Take a
    zone identifier, a hostname, an address and record identifiers that a
    URL carries as they are (unreserved characters only), so that the calls
    reach the service as the worker means them.  With record identifiers
    distinct, every record that is no A record, and every A record of
    another hostname bound to another address, is in the zone afterwards
    as it was before. *)
Theorem other_records_untouched w device env r :
  url_safe (ZONE_ID env) = true ->
  url_safe (dns_name device env) = true ->
  url_safe (dev_ipv4 device) = true ->
  Forall (fun x => url_safe (rec_id x) = true) (zone w) ->
  faults w = [] ->
  NoDup (map rec_id (zone w)) ->
  In r (zone w) ->
  is_A r = false \/
    (rec_name r <> dns_name device env /\ rec_content r <> dev_ipv4 device) ->
  In r (zone (snd (fst (run cloudflare (manageDNSRecord device env) w)))).
Proof.
  intros _ _ _ _ Hf Hnd Hr Hother.
  assert (Hnot : forall x,
            In x (zone w) -> is_A x = true ->
            rec_name x = dns_name device env \/
              rec_content x = dev_ipv4 device ->
            rec_id r <> rec_id x).
  { intros x Hx HxA Hx' E.
    assert (r = x) by (eapply same_id_same_record; eauto). subst x.
    destruct Hother as [HA | [Hn Hc]]; [congruence|]. tauto. }
  rewrite run_manageDNSRecord. cbv zeta.
  rewrite (cloudflare_healthy (ListByName _ _) w Hf). cbn [serve fst snd].
  destruct (a_named (dns_name device env) (zone w)) as [|ex others] eqn:E1;
    cbn [read_first answer body success result].
  - rewrite (cloudflare_healthy (CreateRecord _ _ _) w Hf).
    cbn [serve fst snd zone]. apply in_or_app. now left.
  - destruct (a_named_first _ _ _ _ E1) as (Hex & HexA & Hexn).
    destruct (rec_content ex =? dev_ipv4 device); cbn [fst snd];
      [exact Hr|].
    rewrite (cloudflare_healthy (ListByContent _ _) w Hf).
    cbn [serve fst snd].
    destruct (a_bound (dev_ipv4 device) (zone w)) as [|dup l] eqn:E2;
      cbn [read_first answer body success result].
    + rewrite (cloudflare_healthy (UpdateRecord _ _ _ _) w Hf).
      cbn [serve]. rewrite (has_id_in _ _ Hex). cbn [fst snd zone].
      apply in_overwrite_other; [exact Hr|]. apply Hnot; auto.
    + destruct (a_bound_first _ _ _ _ E2) as (Hdup & HdupA & Hdupc).
      rewrite (cloudflare_healthy (DeleteRecord _ _) w Hf).
      cbn [serve]. rewrite (has_id_in _ _ Hdup). cbn [fst snd ack answer].
      assert (Hkept : In r (delete_id (rec_id dup) (zone w))).
      { apply in_delete. split; [exact Hr|]. apply Hnot; auto. }
      rewrite cloudflare_healthy by exact Hf. cbn [serve zone].
      destruct (has_id (rec_id ex) (delete_id (rec_id dup) (zone w)));
        cbn [fst snd zone]; [|exact Hkept].
      apply in_overwrite_other; [exact Hkept|]. apply Hnot; auto.
Qed.

(** X15.  There is no rollback.  When the delete of the duplicate is served and
    the update that follows is rejected, the reconciliation throws and the
    zone stays as the delete left it: the duplicate is gone, the record of
    the hostname still holds its old address, and no A record is bound to
    the target address. *)
Theorem rejected_update_leaves_delete w device env existing duplicate :
  faults w = [Healthy; Healthy; Healthy; Reject] ->
  steady (zone w) ->
  In existing (zone w) -> is_A existing = true ->
  rec_name existing = dns_name device env ->
  rec_content existing <> dev_ipv4 device ->
  In duplicate (zone w) -> is_A duplicate = true ->
  rec_content duplicate = dev_ipv4 device ->
  exists w' t,
    run cloudflare (manageDNSRecord device env) w
      = (Exn NetworkError, w', t) /\
    requests t =
      [ListByName (ZONE_ID env) (dns_name device env);
       ListByContent (ZONE_ID env) (dev_ipv4 device);
       DeleteRecord (ZONE_ID env) (rec_id duplicate);
       UpdateRecord (ZONE_ID env) (rec_id existing) (dns_name device env)
         (dev_ipv4 device)] /\
    zone w' = delete_id (rec_id duplicate) (zone w) /\
    In existing (zone w') /\
    a_bound (dev_ipv4 device) (zone w') = [].
Proof.
  intros Hf Hst Hex HexA Hexn Hexc Hdup HdupA Hdupc.
  assert (Hids : rec_id existing <> rec_id duplicate).
  { intro E. apply Hexc. rewrite <- Hdupc. f_equal.
    destruct Hst as (Hnd & _). eapply same_id_same_record; eauto. }
  eexists. eexists. split; [|split; [|split; [|split]]].
  - rewrite run_manageDNSRecord. cbv zeta.
    rewrite (cloudflare_served _ w _ Hf).
    cbn [serve fst snd zone directory next_id].
    rewrite <- Hexn at 1. rewrite (a_named_steady _ _ Hst Hex HexA).
    cbn [read_first answer body success result].
    apply String.eqb_neq in Hexc. rewrite Hexc.
    next_call. cbn [serve fst snd zone directory next_id].
    rewrite <- Hdupc at 1. rewrite (a_bound_steady _ _ Hst Hdup HdupA).
    cbn [read_first answer body success result].
    next_call. cbn [serve zone directory next_id faults].
    rewrite (has_id_in _ _ Hdup). cbn [fst snd ack answer].
    next_call. cbn [fst snd ack finish]. reflexivity.
  - reflexivity.
  - reflexivity.
  - apply in_delete. now split.
  - apply filter_none. intros r Hr. apply in_delete in Hr.
    destruct Hr as [Hr Hid]. destruct (is_A r) eqn:HA; [|reflexivity]. simpl.
    apply String.eqb_neq. intro Hc. apply Hid.
    destruct Hst as (_ & _ & Hcont).
    now rewrite (Hcont r duplicate Hr Hdup HA HdupA (eq_trans Hc (eq_sym Hdupc))).
Qed.
End ZoneFrame.

(** ** The further properties at the sample data *)

Lemma action_tells_calls_witness :
  exists i j,
    requests trace_ab =
      [ListByName "zone-1" "b.example.com";
       ListByContent "zone-1" "10.0.0.1";
       DeleteRecord "zone-1" j;
       UpdateRecord "zone-1" i "b.example.com" "10.0.0.1"].
Proof.
  exact (proj2 (proj2
           (action_tells_calls World cloudflare device_b env0 world_ab
              (Ok (mkAction updated "b.example.com" "10.0.0.1"
                            (Some "a.example.com")))
              world_ab_done trace_ab
              (mkAction updated "b.example.com" "10.0.0.1"
                        (Some "a.example.com"))
              eq_refl eq_refl))).
Defined.

Lemma throw_is_last_call_witness :
  exists t' c,
    trace_ab_cut = t' ++ [c] /\ call_error c = Some NetworkError /\
    Forall (fun c' => call_error c' = None) t' /\
    (is_mutation (fst c) = true ->
     snd c = FetchRejects /\ NetworkError = NetworkError).
Proof.
  exact (throw_is_last_call World cloudflare device_b env0 world_ab_cut
           (Exn NetworkError) (mkWorld [rec_b] [] 3 []) trace_ab_cut eq_refl).
Defined.

Lemma bad_batch_makes_no_call_witness :
  run cloudflare
      (worker_fetch
         (mkRequest "POST" (Some [JObj (Some "dev-1") (Some "alpha"); JNull]))
         env0)
      (world_batch []) =
  (Ok (mkReply 500 (TextBody "Error processing data")), world_batch [], []).
Proof.
  apply bad_batch_makes_no_call; [reflexivity|].
  right. eexists. split; [reflexivity|]. right. left. reflexivity.
Defined.

Lemma nothing_kept_replies_empty_witness :
  run cloudflare
      (worker_fetch
         (mkRequest "POST"
            (Some [JObj None (Some "alpha"); JObj (Some "dev-1") (Some "");
                   JObj (Some "") (Some "gamma"); JObj None None]))
         env0)
      (world_batch []) =
  (Ok (mkReply 200 (JsonActions [])), world_batch [], []).
Proof.
  eapply nothing_kept_replies_empty;
    [reflexivity | reflexivity | discriminate |].
  repeat constructor; discriminate.
Defined.

Lemma unique_devices_sound_witness :
  Forall (fun d =>
            In (JObj (Some (fst d)) (Some (snd d)))
               [JObj (Some "dev-1") (Some "old-name");
                JObj (Some "dev-1") (Some "new-name");
                JObj (Some "dev-2") (Some "beta")] /\
            fst d <> "" /\ snd d <> "")
         [("dev-1", "new-name"); ("dev-2", "beta")] /\
  map_get "dev-9" [("dev-1", "new-name"); ("dev-2", "beta")] = None.
Proof.
  destruct (unique_devices_sound
              [JObj (Some "dev-1") (Some "old-name");
               JObj (Some "dev-1") (Some "new-name");
               JObj (Some "dev-2") (Some "beta")]
              [("dev-1", "new-name"); ("dev-2", "beta")] eq_refl)
    as [Hin Hnone].
  split; [exact Hin|]. apply Hnone.
  repeat constructor; intros n H; discriminate H.
Defined.

Lemma later_lines_keep_order_witness :
  exists more, ["dev-1"; "dev-2"; "dev-3"] = ["dev-1"; "dev-2"] ++ more.
Proof.
  exact (later_lines_keep_order
           [JObj (Some "dev-1") (Some "alpha");
            JObj (Some "dev-2") (Some "beta")]
           [JObj (Some "dev-1") (Some "renamed");
            JObj (Some "dev-3") (Some "gamma")]
           [("dev-1", "alpha"); ("dev-2", "beta")]
           [("dev-1", "renamed"); ("dev-2", "beta"); ("dev-3", "gamma")]
           eq_refl eq_refl).
Defined.

Lemma directory_called_once_each_witness :
  exists done rest,
    devices2 = done ++ rest /\
    directory_calls
      [GetDevice "acct-1" "dev-1"; ListByName "zone-1" "alpha.example.com"]
      = map (GetDevice "acct-1") (keys done) /\
    done <> [].
Proof.
  exact (directory_called_once_each World cloudflare devices2 [] env0
           (world_batch [Healthy; Reject]) (Exn NetworkError) (world_batch [])
           [(GetDevice "acct-1" "dev-1",
             answer (ResDevice (details_of "10.0.0.1")));
            (ListByName "zone-1" "alpha.example.com", FetchRejects)]
           eq_refl).
Defined.

Lemma log_follows_devices_witness :
  exists w' t,
    run cloudflare (process_batch request2 env0) (world_dirs []) =
      (Ok [mkAction created "alpha.example.com" "10.0.0.1" None], w', t) /\
    List.length (directory_answers t) = 2 /\
    [("alpha.example.com", "10.0.0.1")]
      = expected_log env0 devices2 (directory_answers t).
Proof.
  destruct (run cloudflare (process_batch request2 env0) (world_dirs []))
    as [[res w'] t] eqn:H.
  pose proof H as H'. vm_compute in H'. injection H' as <- <- <-.
  eexists. eexists. split; [reflexivity|].
  destruct (log_follows_devices World cloudflare request2 env0
              [JObj (Some "dev-1") (Some "alpha");
               JObj (Some "dev-2") (Some "beta")]
              devices2 (world_dirs []) _ _ _ eq_refl eq_refl H)
    as (Hlen & Hlog & _).
  split; [exact Hlen | exact Hlog].
Defined.

Lemma directory_outage_touches_no_record_witness :
  exists w' t,
    run addressless (processDevices devices2 [] env0) tt = (Ok [], w', t) /\
    requests t = [GetDevice "acct-1" "dev-1"; GetDevice "acct-1" "dev-2"].
Proof.
  exact (directory_outage_touches_no_record unit addressless env0
           (fun _ _ => or_intror (no_metadata 200)) devices2 [] tt).
Defined.

Lemma existing_hostname_reconciled_witness :
  exists act w' t,
    run cloudflare (manageDNSRecord device_b env0) world_ab = (Ok act, w', t) /\
    action act <> created /\
    reconciled (dns_name device_b env0) (dev_ipv4 device_b) (zone w').
Proof.
  apply (existing_hostname_reconciled world_ab device_b env0).
  - reflexivity.
  - exact steady_ab.
  - discriminate.
Defined.

Lemma existing_hostname_keeps_steady_witness :
  steady (zone (snd (fst (run cloudflare (manageDNSRecord device_b env0)
                            world_ab)))).
Proof.
  apply (existing_hostname_keeps_steady world_ab device_b env0).
  - reflexivity.
  - exact steady_ab.
  - discriminate.
Defined.

Lemma reconcile_again_no_change_witness :
  exists act w1 t1 t2,
    run cloudflare (manageDNSRecord device_b env0) world_ab = (Ok act, w1, t1) /\
    run cloudflare (manageDNSRecord device_b env0) w1 =
      (Ok (mkAction no_change (dns_name device_b env0) (dev_ipv4 device_b)
                    None), w1, t2) /\
    requests t2 = [ListByName (ZONE_ID env0) (dns_name device_b env0)].
Proof.
  apply (reconcile_again_no_change world_ab device_b env0).
  - reflexivity.
  - exact steady_ab.
  - discriminate.
Defined.

Lemma other_records_untouched_witness :
  In rec_txt
     (zone (snd (fst (run cloudflare (manageDNSRecord device_b env0)
                        world_abc)))).
Proof.
  apply (other_records_untouched world_abc device_b env0 rec_txt).
  - reflexivity.
  - reflexivity.
  - reflexivity.
  - repeat constructor.
  - reflexivity.
  - simpl. repeat constructor; simpl; intuition discriminate.
  - simpl. right. right. right. left. reflexivity.
  - left. reflexivity.
Defined.

Lemma rejected_update_leaves_delete_witness :
  exists w' t,
    run cloudflare (manageDNSRecord device_b env0) world_ab_cut
      = (Exn NetworkError, w', t) /\
    requests t =
      [ListByName "zone-1" "b.example.com";
       ListByContent "zone-1" "10.0.0.1";
       DeleteRecord "zone-1" "rec-1";
       UpdateRecord "zone-1" "rec-2" "b.example.com" "10.0.0.1"] /\
    zone w' = delete_id "rec-1" [rec_a; rec_b] /\
    In rec_b (zone w') /\
    a_bound "10.0.0.1" (zone w') = [].
Proof.
  apply (rejected_update_leaves_delete world_ab_cut device_b env0 rec_b rec_a).
  - reflexivity.
  - exact steady_ab.
  - simpl. right. left. reflexivity.
  - reflexivity.
  - reflexivity.
  - discriminate.
  - simpl. left. reflexivity.
  - reflexivity.
  - reflexivity.
Defined.

(** ** The revised claims at the sample data *)

Lemma dns_failure_aborts_batch_witness :
  run cloudflare (worker_fetch request2 env0) (world_batch [Healthy; Reject]) =
    (Ok (mkReply 500 (TextBody "Error processing data")),
     world_batch [],
     [(GetDevice "acct-1" "dev-1", answer (ResDevice (details_of "10.0.0.1")));
      (ListByName "zone-1" "alpha.example.com", FetchRejects)]) /\
  run cloudflare (worker_fetch request2 env0) (world_batch [Healthy; Garbled]) =
    (Ok (mkReply 500 (TextBody "Error processing data")),
     world_batch [],
     [(GetDevice "acct-1" "dev-1", answer (ResDevice (details_of "10.0.0.1")));
      (ListByName "zone-1" "alpha.example.com",
       Responded (mkResponse 502 NotJson))]) /\
  (exists log w3 t3,
     run cloudflare (processDevices devices2 [] env0)
         (world_batch [Healthy; Refuse; Refuse]) = (Ok log, w3, t3) /\
     In (mkAction created "alpha.example.com" "10.0.0.1" None) log).
Proof.
  split; [|split].
  - destruct (dns_failure_aborts_batch World cloudflare request2 env0
                [JObj (Some "dev-1") (Some "alpha");
                 JObj (Some "dev-2") (Some "beta")]
                [] "dev-1" "alpha" [("dev-2", "beta")]
                (world_batch [Healthy; Reject]) []
                (world_batch [Healthy; Reject]) [] "10.0.0.1"
                (Exn NetworkError) (world_batch [])
                [(ListByName "zone-1" "alpha.example.com", FetchRejects)]
                eq_refl eq_refl eq_refl eq_refl eq_refl eq_refl)
      as (_ & _ & H & _).
    exact (H NetworkError eq_refl).
  - destruct (dns_failure_aborts_batch World cloudflare request2 env0
                [JObj (Some "dev-1") (Some "alpha");
                 JObj (Some "dev-2") (Some "beta")]
                [] "dev-1" "alpha" [("dev-2", "beta")]
                (world_batch [Healthy; Garbled]) []
                (world_batch [Healthy; Garbled]) [] "10.0.0.1"
                (Exn SyntaxError) (world_batch [])
                [(ListByName "zone-1" "alpha.example.com",
                  Responded (mkResponse 502 NotJson))]
                eq_refl eq_refl eq_refl eq_refl eq_refl eq_refl)
      as (_ & _ & H & _).
    exact (H SyntaxError eq_refl).
  - destruct (dns_failure_aborts_batch World cloudflare request2 env0
                [JObj (Some "dev-1") (Some "alpha");
                 JObj (Some "dev-2") (Some "beta")]
                [] "dev-1" "alpha" [("dev-2", "beta")]
                (world_batch [Healthy; Refuse; Refuse]) []
                (world_batch [Healthy; Refuse; Refuse]) [] "10.0.0.1"
                (Ok (mkAction created "alpha.example.com" "10.0.0.1" None))
                (world_batch [])
                [(ListByName "zone-1" "alpha.example.com", refusal 500);
                 (CreateRecord "zone-1" "alpha.example.com" "10.0.0.1",
                  refusal 500)]
                eq_refl eq_refl eq_refl eq_refl eq_refl eq_refl)
      as (_ & _ & _ & H).
    assert (Hall : forall c o,
              In (c, o)
                 [(ListByName "zone-1" "alpha.example.com", refusal 500);
                  (CreateRecord "zone-1" "alpha.example.com" "10.0.0.1",
                   refusal 500)] ->
              refused o).
    { intros c o [E | [E | []]]; injection E as _ <-;
        eexists; eexists; (split; [reflexivity|]); split; reflexivity. }
    destruct (H Hall) as (_ & _ & _ & Hin).
    eexists. eexists. eexists.
    split; [vm_compute; reflexivity|].
    eapply Hin. vm_compute. reflexivity.
Defined.

Lemma last_name_is_reconciled_witness :
  exists before after,
    uniqueDevices
      [JObj (Some "dev-1") (Some "old-name");
       JObj (Some "dev-1") (Some "new-name");
       JObj (Some "dev-2") (Some "beta")]
      = Ret (before ++ ("dev-1", "new-name") :: after) /\
    NoDup (keys (before ++ ("dev-1", "new-name") :: after)) /\
    (forall n', In ("dev-1", n') (before ++ ("dev-1", "new-name") :: after) ->
                n' = "new-name") /\
    run cloudflare
        (process_batch
           (mkRequest "POST"
              (Some [JObj (Some "dev-1") (Some "old-name");
                     JObj (Some "dev-1") (Some "new-name");
                     JObj (Some "dev-2") (Some "beta")]))
           env0)
        (world_batch [])
      = run cloudflare
          (processDevices (before ++ ("dev-1", "new-name") :: after) [] env0)
          (world_batch []).
Proof.
  destruct (last_name_is_reconciled World cloudflare
              (mkRequest "POST"
                 (Some [JObj (Some "dev-1") (Some "old-name");
                        JObj (Some "dev-1") (Some "new-name");
                        JObj (Some "dev-2") (Some "beta")]))
              env0
              [JObj (Some "dev-1") (Some "old-name")]
              [JObj (Some "dev-2") (Some "beta")]
              "dev-1" "new-name" (world_batch []))
    as (before & after & Hu & Hnd & Honly & Hrun & _).
  - reflexivity.
  - simpl. intros [H | [H | []]]; discriminate H.
  - discriminate.
  - discriminate.
  - simpl. intros n' [H | []]. discriminate H.
  - exists before, after. split; [exact Hu|]. split; [exact Hnd|].
    split; [exact Honly | exact Hrun].
Defined.

Lemma unresolved_device_is_skipped_witness :
  (* a rejected fetch *)
  run cloudflare (processDevices [("dev-1", "alpha"); ("dev-3", "gamma")] []
                    env0) (world_dirs [Reject]) =
    (let '(res, w2, t) :=
       run cloudflare (processDevices [("dev-3", "gamma")] [] env0)
           (world_dirs []) in
     (res, w2, (GetDevice "acct-1" "dev-1", FetchRejects) :: t)) /\
  (* a device without metadata *)
  run cloudflare (processDevices [("dev-3", "gamma"); ("dev-1", "alpha")] []
                    env0) (world_dirs []) =
    (let '(res, w2, t) :=
       run cloudflare (processDevices [("dev-1", "alpha")] [] env0)
           (world_dirs []) in
     (res, w2,
      (GetDevice "acct-1" "dev-3", answer (ResDevice (mkDetails None))) :: t)) /\
  (* a device with an empty address *)
  run cloudflare (processDevices [("dev-5", "eta"); ("dev-1", "alpha")] []
                    env0) (world_dirs []) =
    (let '(res, w2, t) :=
       run cloudflare (processDevices [("dev-1", "alpha")] [] env0)
           (world_dirs []) in
     (res, w2,
      (GetDevice "acct-1" "dev-5",
       answer (ResDevice (mkDetails (Some (mkMetadata (Some "")))))) :: t)).
Proof.
  split; [|split].
  - destruct (unresolved_device_is_skipped World cloudflare "dev-1" "alpha"
                [("dev-3", "gamma")] [] env0 (world_dirs [Reject])
                (or_introl fails_rejected))
      as (_ & _ & H).
    exact H.
  - destruct (unresolved_device_is_skipped World cloudflare "dev-3" "gamma"
                [("dev-1", "alpha")] [] env0 (world_dirs [])
                (or_intror (no_metadata 200)))
      as (_ & _ & H).
    exact H.
  - destruct (unresolved_device_is_skipped World cloudflare "dev-5" "eta"
                [("dev-1", "alpha")] [] env0 (world_dirs [])
                (or_intror (empty_ipv4 200)))
      as (_ & _ & H).
    exact H.
Defined.

Lemma worker_reply_witness :
  run cloudflare (worker_fetch (mkRequest "GET" None) env0) (world_batch []) =
    (Ok (mkReply 405 (TextBody "Only POST requests are allowed")),
     world_batch [], []) /\
  run cloudflare (worker_fetch (mkRequest "POST" None) env0) (world_batch []) =
    (Ok (mkReply 500 (TextBody "Error processing data")), world_batch [], []) /\
  (exists w' t,
     run cloudflare (worker_fetch request2 env0) (world_batch []) =
     (Ok (mkReply 200
            (JsonActions
               [mkAction created "alpha.example.com" "10.0.0.1" None;
                mkAction created "beta.example.com" "10.0.0.2" None])),
      w', t)) /\
  (exists w' t,
     run cloudflare (worker_fetch request2 env0)
         (world_batch [Healthy; Reject]) =
     (Ok (mkReply 500 (TextBody "Error processing data")), w', t)).
Proof.
  assert (Hnonull : ~ In JNull [JObj (Some "dev-1") (Some "alpha");
                                JObj (Some "dev-2") (Some "beta")]).
  { simpl. intros [H | [H | []]]; discriminate H. }
  split; [|split; [|split]].
  - apply (proj1 (worker_reply World cloudflare (mkRequest "GET" None) env0
                    (world_batch []))).
    discriminate.
  - apply (proj1 (proj2 (worker_reply World cloudflare
                           (mkRequest "POST" None) env0 (world_batch []))
                    eq_refl)).
    left. reflexivity.
  - destruct (proj2 (proj2 (worker_reply World cloudflare request2 env0
                              (world_batch [])) eq_refl)
                _ eq_refl Hnonull)
      as (devices & E & H200 & _).
    vm_compute in E. injection E as <-.
    eexists. eexists. eapply H200. vm_compute. reflexivity.
  - destruct (proj2 (proj2 (worker_reply World cloudflare request2 env0
                              (world_batch [Healthy; Reject])) eq_refl)
                _ eq_refl Hnonull)
      as (devices & E & _ & H500).
    vm_compute in E. injection E as <-.
    eexists. eexists. eapply H500. vm_compute. reflexivity.
Defined.
